(** * pcl-cloud-span: the PointCloud specialisation over span_or_vector

    A shallow embedding of [include/pcl_cloud_span/impl/point_cloud.h]:
    the [pcl::PointCloud<Spannable<PurePointT>>] class, its constructors,
    its mutating members in their plain and transient forms, 2D access and
    concatenation, followed by the properties of the grid that hold on it.

    Conventions of the embedding:
    - fixed-width C++ integers are [Z] with the conversion written out
      ([std::uint32_t] wraps modulo 2^32, [std::size_t] modulo 2^64); an
      argument is converted to the type of its parameter on entry;
    - [index_t] and [uindex_t] come from [pcl/types.h], which is not part
      of the sources: they are PCL's defaults, [std::int32_t] and
      [std::uint32_t];
    - [assert] is a check that aborts the call when it fails;
    - a member function is a computation in a small state-and-exception
      monad whose state is the object it is called on;
    - an iterator into the point buffer is its offset from [begin()];
    - an input range [first, last) is the list of the points it denotes;
    - the two inputs of the three-argument [concatenate] are references
      that may name the output cloud itself: each is a [cloud_ref], read
      when the statement that uses it runs. *)

From Stdlib Require Import ZArith List Bool Lia.
From Stdlib Require String.
Import ListNotations.

Local Open Scope Z_scope.

(** ** Machine integers *)

Module Int.

Definition two31 : Z := 2147483648.
Definition two32 : Z := 4294967296.
Definition two64 : Z := 18446744073709551616.

(** Conversion to [std::uint32_t]. *)
Definition to_uint32 (z : Z) : Z := z mod two32.

(** Conversion to [std::size_t] (64 bits). *)
Definition to_size_t (z : Z) : Z := z mod two64.

(** Conversion to [int] (32 bits, two's complement). *)
Definition to_int32 (z : Z) : Z := (z + two31) mod two32 - two31.

(** Unsigned 32-bit product and sum, as for [width * height]. *)
Definition mul32 (a b : Z) : Z := to_uint32 (a * b).
Definition add32 (a b : Z) : Z := to_uint32 (a + b).

(** [std::size_t] product and sum. *)
Definition mul64 (a b : Z) : Z := to_size_t (a * b).
Definition add64 (a b : Z) : Z := to_size_t (a + b).

(** Is [z] representable as an [int]? *)
Definition in_int32 (z : Z) : bool := (- two31 <=? z) && (z <? two31).

End Int.

Import Int.

Ltac unfold_int :=
  unfold mul32, add32, mul64, add64, to_uint32, to_size_t, to_int32,
    in_int32, two31, two32, two64 in *.

(** ** Exceptions and diagnostics *)

(** What a member function can raise.  [out_of_range] is what the buffer's
    checked [at] throws, [UnorganizedPointCloudException] is thrown by the
    2D [at], [capacity_violation] is the buffer's refusal to change the
    length of borrowed storage, [assertion_failed] is a failed [assert],
    and [undefined_behaviour] marks a call outside the C++ contract (an
    iterator outside the buffer, an unchecked access past the end, signed
    overflow). *)
Inductive exn : Type :=
| out_of_range
| UnorganizedPointCloudException
| capacity_violation
| assertion_failed
| undefined_behaviour.

(** The two [PCL_WARN] diagnostics of the width-qualified [assign]. *)
Inductive warning : Type :=
| warn_zero_width
| warn_mismatch (requested_width size : Z).

(** ** The point buffer *)

Module span_or_vector.

Inductive ownership : Type := Owning | Borrowing.

(** Modelled from the spec: the header [span_or_vector/span_or_vector.hpp]
    is not among the sources, so the buffer follows the specification's
    HybridBuffer: a sequence of elements with an ownership mode.  In
    [Borrowing] mode the storage has a fixed length, and any operation that
    would leave a different length raises the capacity error and changes
    nothing; in [Owning] mode the operations have the semantics of a
    standard sequence container. *)
Record t (T : Type) : Type := mk { mode : ownership; elems : list T }.

Arguments mk {T} _ _.
Arguments mode {T} _.
Arguments elems {T} _.

Section Ops.
Context {T : Type}.

Definition size (b : t T) : Z := Z.of_nat (length (elems b)).

Definition empty_ (b : t T) : bool :=
  match elems b with [] => true | _ => false end.

(** Modelled from the spec: created empty (an owning buffer). *)
Definition create_empty : t T := mk Owning [].

(** Modelled from the spec: [own(len, value)]. *)
Definition own (n : Z) (value : T) : t T := mk Owning (repeat value (Z.to_nat n)).

(** Modelled from the spec: [own(first, last)]. *)
Definition own_range (l : list T) : t T := mk Owning l.

(** Modelled from the spec: [borrow(ptr, len)], a view of the [n]
    elements stored from [data] on; [data i] is the element at [data + i]. *)
Definition borrow (data : nat -> T) (n : Z) : t T :=
  mk Borrowing (map data (seq 0 (Z.to_nat n))).

(** Modelled from the spec: copying always gives an owning buffer. *)
Definition copy (b : t T) : t T := mk Owning (elems b).

(** Modelled from the spec: the mode check shared by every operation that
    replaces the contents: a borrowing buffer accepts the new contents
    only when the length stays the same. *)
Definition commit (b : t T) (new : list T) : exn + t T :=
  match mode b with
  | Owning => inr (mk Owning new)
  | Borrowing =>
      if Nat.eqb (length new) (length (elems b))
      then inr (mk Borrowing new)
      else inl capacity_violation
  end.

(** Modelled from the spec: copy assignment [b = src] replaces the contents
    of [b] by those of [src] under the mode check of every operation that
    replaces the contents; buffers never share storage, so [b] keeps its
    own mode and storage. *)
Definition copy_assign (src b : t T) : exn + t T :=
  commit b (elems src).

(** Modelled from the spec: [resize(newLen, value)] truncates or grows,
    filling new slots with [value]. *)
Definition resize (n : Z) (value : T) (b : t T) : exn + t T :=
  commit b (firstn (Z.to_nat n) (elems b)
            ++ repeat value (Z.to_nat n - length (elems b))%nat).

(** Modelled from the spec: [assign(count, value)]. *)
Definition assign (n : Z) (value : T) (b : t T) : exn + t T :=
  commit b (repeat value (Z.to_nat n)).

(** Modelled from the spec: [assign(first, last)]. *)
Definition assign_range (l : list T) (b : t T) : exn + t T :=
  commit b l.

(** Modelled from the spec: [push_back] and [emplace_back]. *)
Definition push_back (x : T) (b : t T) : exn + t T :=
  commit b (elems b ++ [x]).

(** Modelled from the spec: the three [insert] forms and [emplace] all
    place a run of elements before the position [pos]. *)
Definition insert (pos : nat) (xs : list T) (b : t T) : exn + t T :=
  if Nat.leb pos (length (elems b))
  then commit b (firstn pos (elems b) ++ xs ++ skipn pos (elems b))
  else inl undefined_behaviour.

(** Modelled from the spec: [erase(first, last)]. *)
Definition erase_range (first last : nat) (b : t T) : exn + t T :=
  if Nat.leb first last && Nat.leb last (length (elems b))
  then commit b (firstn first (elems b) ++ skipn last (elems b))
  else inl undefined_behaviour.

(** Modelled from the spec: [erase(position)]; the position must point
    at an element. *)
Definition erase (pos : nat) (b : t T) : exn + t T :=
  if Nat.ltb pos (length (elems b))
  then commit b (firstn pos (elems b) ++ skipn (S pos) (elems b))
  else inl undefined_behaviour.

(** Modelled from the spec: clearing resets the buffer to empty. *)
Definition clear (b : t T) : t T := mk (mode b) [].

(** Modelled from the spec: [at] signals an out-of-range error when
    [i >= length]. *)
Definition at_ (i : Z) (b : t T) : exn + T :=
  if i <? size b
  then match nth_error (elems b) (Z.to_nat i) with
       | Some x => inr x
       | None => inl out_of_range
       end
  else inl out_of_range.

(** Modelled from the spec: [operator[]] is unchecked; an index past the
    end is outside its contract. *)
Definition subscript (i : Z) (b : t T) : exn + T :=
  match nth_error (elems b) (Z.to_nat i) with
  | Some x => inr x
  | None => inl undefined_behaviour
  end.

(** Writing through the reference returned by [operator[]]. *)
Fixpoint update (i : nat) (x : T) (l : list T) : list T :=
  match l, i with
  | [], _ => []
  | _ :: l', O => x :: l'
  | y :: l', S i' => y :: update i' x l'
  end.

Definition store (i : Z) (x : T) (b : t T) : exn + t T :=
  if Nat.ltb (Z.to_nat i) (length (elems b))
  then inr (mk (mode b) (update (Z.to_nat i) x (elems b)))
  else inl undefined_behaviour.

End Ops.

End span_or_vector.

(** ** The monad of member functions *)

Section Exec.
Context {S : Type}.

(** A call either returns a value or throws; both leave a state behind and
    may have emitted diagnostics. *)
Inductive result (A : Type) : Type :=
| Returned (s : S) (log : list warning) (a : A)
| Thrown (s : S) (log : list warning) (e : exn).

Arguments Returned {A} _ _ _.
Arguments Thrown {A} _ _ _.

Definition M (A : Type) : Type := S -> result A.

Definition ret {A} (a : A) : M A := fun s => Returned s [] a.

Definition bind {A B} (m : M A) (f : A -> M B) : M B :=
  fun s =>
    match m s with
    | Returned s1 w1 a =>
        match f a s1 with
        | Returned s2 w2 b => Returned s2 (w1 ++ w2) b
        | Thrown s2 w2 e => Thrown s2 (w1 ++ w2) e
        end
    | Thrown s1 w1 e => Thrown s1 w1 e
    end.

Definition get : M S := fun s => Returned s [] s.
Definition put (s : S) : M unit := fun _ => Returned s [] tt.
Definition throw {A} (e : exn) : M A := fun s => Thrown s [] e.
Definition PCL_WARN (w : warning) : M unit := fun s => Returned s [w] tt.

(** The state a call leaves behind, the diagnostics it emitted, and
    whether it returned. *)
Definition final {A} (r : result A) : S :=
  match r with Returned s _ _ => s | Thrown s _ _ => s end.

Definition emitted {A} (r : result A) : list warning :=
  match r with Returned _ w _ => w | Thrown _ w _ => w end.

Definition raised {A} (r : result A) : option exn :=
  match r with Returned _ _ _ => None | Thrown _ _ e => Some e end.

End Exec.

Arguments result : clear implicits.
Arguments M : clear implicits.
Arguments Returned {S A} _ _ _.
Arguments Thrown {S A} _ _ _.

Notation "x <- m ;; k" := (bind m (fun x => k))
  (at level 61, m at next level, right associativity).
Notation "m ;; k" := (bind m (fun _ => k))
  (at level 61, right associativity).

(** ** The point cloud *)

Module pcl.

(** [pcl::PCLHeader]: sequence number, acquisition time stamp (a 64-bit
    unsigned integer) and coordinate frame name. *)
Record PCLHeader : Type := mkHeader {
  seq : Z;
  stamp : Z;
  frame_id : String.string
}.

Definition PCLHeader_default : PCLHeader :=
  {| seq := 0; stamp := 0; frame_id := String.EmptyString |}.

Definition with_stamp (t : Z) (h : PCLHeader) : PCLHeader :=
  {| seq := seq h; stamp := t; frame_id := frame_id h |}.

Section PointCloud.

(** The point type and the two Eigen types of the sensor pose are opaque
    to this layer; [PointT_default] is the value-initialised point
    [PointT()]. *)
Context {PointT Vector4f Quaternionf : Type}.
Variable PointT_default : PointT.
Variable Vector4f_Zero : Vector4f.
Variable Quaternionf_Identity : Quaternionf.

Record PointCloud : Type := mkPointCloud {
  header : PCLHeader;
  points : span_or_vector.t PointT;
  width : Z;
  height : Z;
  is_dense : bool;
  sensor_origin_ : Vector4f;
  sensor_orientation_ : Quaternionf
}.

Definition with_header (x : PCLHeader) (c : PointCloud) : PointCloud :=
  {| header := x; points := points c; width := width c; height := height c;
     is_dense := is_dense c; sensor_origin_ := sensor_origin_ c;
     sensor_orientation_ := sensor_orientation_ c |}.

Definition with_points (x : span_or_vector.t PointT) (c : PointCloud) : PointCloud :=
  {| header := header c; points := x; width := width c; height := height c;
     is_dense := is_dense c; sensor_origin_ := sensor_origin_ c;
     sensor_orientation_ := sensor_orientation_ c |}.

Definition with_width (x : Z) (c : PointCloud) : PointCloud :=
  {| header := header c; points := points c; width := x; height := height c;
     is_dense := is_dense c; sensor_origin_ := sensor_origin_ c;
     sensor_orientation_ := sensor_orientation_ c |}.

Definition with_height (x : Z) (c : PointCloud) : PointCloud :=
  {| header := header c; points := points c; width := width c; height := x;
     is_dense := is_dense c; sensor_origin_ := sensor_origin_ c;
     sensor_orientation_ := sensor_orientation_ c |}.

Definition with_is_dense (x : bool) (c : PointCloud) : PointCloud :=
  {| header := header c; points := points c; width := width c; height := height c;
     is_dense := x; sensor_origin_ := sensor_origin_ c;
     sensor_orientation_ := sensor_orientation_ c |}.

Definition with_sensor_origin (x : Vector4f) (c : PointCloud) : PointCloud :=
  {| header := header c; points := points c; width := width c; height := height c;
     is_dense := is_dense c; sensor_origin_ := x;
     sensor_orientation_ := sensor_orientation_ c |}.

Definition with_sensor_orientation (x : Quaternionf) (c : PointCloud) : PointCloud :=
  {| header := header c; points := points c; width := width c; height := height c;
     is_dense := is_dense c; sensor_origin_ := sensor_origin_ c;
     sensor_orientation_ := x |}.

(** The contents and the length of the point buffer of a cloud. *)
Definition contents (c : PointCloud) : list PointT := span_or_vector.elems (points c).
Definition length_of (c : PointCloud) : Z := span_or_vector.size (points c).

(** *** Plumbing between the members and the buffer *)

Definition set_header (x : PCLHeader) : M PointCloud unit :=
  fun c => Returned (with_header x c) [] tt.
Definition set_width (x : Z) : M PointCloud unit :=
  fun c => Returned (with_width x c) [] tt.
Definition set_height (x : Z) : M PointCloud unit :=
  fun c => Returned (with_height x c) [] tt.
Definition set_is_dense (x : bool) : M PointCloud unit :=
  fun c => Returned (with_is_dense x c) [] tt.
Definition set_sensor_origin (x : Vector4f) : M PointCloud unit :=
  fun c => Returned (with_sensor_origin x c) [] tt.
Definition set_sensor_orientation (x : Quaternionf) : M PointCloud unit :=
  fun c => Returned (with_sensor_orientation x c) [] tt.

(** A mutating call on [points]: an exception leaves the cloud as it was. *)
Definition on_points
  (op : span_or_vector.t PointT -> exn + span_or_vector.t PointT) : M PointCloud unit :=
  fun c =>
    match op (points c) with
    | inr b => Returned (with_points b c) [] tt
    | inl e => Thrown c [] e
    end.

(** A reading call on [points]. *)
Definition read_points {A} (op : span_or_vector.t PointT -> exn + A) : M PointCloud A :=
  fun c =>
    match op (points c) with
    | inr a => Returned c [] a
    | inl e => Thrown c [] e
    end.

(** A reading call on the buffer of another cloud [pc]. *)
Definition read_from {A} (pc : PointCloud)
  (op : span_or_vector.t PointT -> exn + A) : M PointCloud A :=
  fun c =>
    match op (points pc) with
    | inr a => Returned c [] a
    | inl e => Thrown c [] e
    end.

(** *** Constructors *)

(** [PointCloud() = default]. *)
Definition PointCloud_default : PointCloud :=
  {| header := PCLHeader_default; points := span_or_vector.create_empty;
     width := 0; height := 0; is_dense := true;
     sensor_origin_ := Vector4f_Zero;
     sensor_orientation_ := Quaternionf_Identity |}.

(** [PointCloud(PointT* data, std::uint32_t width_, std::uint32_t height_ = 1)]:
    [points(data, static_cast<std::size_t>(width_ * height_))]. *)
Definition PointCloud_span (data : nat -> PointT) (width_ height_ : Z) : PointCloud :=
  let width_ := to_uint32 width_ in
  let height_ := to_uint32 height_ in
  {| header := PCLHeader_default;
     points := span_or_vector.borrow data (to_size_t (mul32 width_ height_));
     width := width_; height := height_; is_dense := true;
     sensor_origin_ := Vector4f_Zero;
     sensor_orientation_ := Quaternionf_Identity |}.

(** [PointCloud(std::uint32_t width_, std::uint32_t height_, const PointT& value_)]. *)
Definition PointCloud_alloc (width_ height_ : Z) (value_ : PointT) : PointCloud :=
  let width_ := to_uint32 width_ in
  let height_ := to_uint32 height_ in
  {| header := PCLHeader_default;
     points := span_or_vector.own (to_size_t (mul32 width_ height_)) value_;
     width := width_; height := height_; is_dense := true;
     sensor_origin_ := Vector4f_Zero;
     sensor_orientation_ := Quaternionf_Identity |}.

(** The implicit copy: member-wise, and the buffer's copy owns its storage. *)
Definition PointCloud_copy (pc : PointCloud) : PointCloud :=
  with_points (span_or_vector.copy (points pc)) pc.

(** The body of the subset constructor's loop
    [for (i = 0; i < indices.size(); i++) points[i] = pc[indices[i]];]
    from position [i] on; an index is an [index_t] converted to the
    [std::size_t] parameter of [operator[]]. *)
Fixpoint copy_indexed (pc : PointCloud) (indices : list Z) (i : Z) : M PointCloud unit :=
  match indices with
  | [] => ret tt
  | idx :: rest =>
      p <- read_from pc (span_or_vector.subscript (to_size_t idx)) ;;
      on_points (span_or_vector.store i p) ;;
      copy_indexed pc rest (i + 1)
  end.

(** [PointCloud(const PointCloud<PointT>& pc, const Indices& indices)]:
    the member initialisers, then [assert(indices.size() <= pc.size())],
    then the copy loop. *)
Definition PointCloud_subset (pc : PointCloud) (indices : list Z) : result PointCloud unit :=
  let n := Z.of_nat (length indices) in
  let this :=
    {| header := header pc;
       points := span_or_vector.own n PointT_default;
       width := to_uint32 n; height := 1; is_dense := is_dense pc;
       sensor_origin_ := sensor_origin_ pc;
       sensor_orientation_ := sensor_orientation_ pc |} in
  ((if n <=? length_of pc then ret tt else throw assertion_failed) ;;
   copy_indexed pc indices 0) this.

(** *** Capacity and element access *)

Definition size : M PointCloud Z := c <- get ;; ret (length_of c).

(** [end()], as an offset from [begin()]. *)
Definition end_ : M PointCloud nat :=
  c <- get ;; ret (length (contents c)).

(** [isOrganized() const]. *)
Definition isOrganized (c : PointCloud) : bool := 1 <? height c.

(** [at(std::size_t n)] and [operator[](std::size_t n)]. *)
Definition at_ (n : Z) : M PointCloud PointT :=
  read_points (span_or_vector.at_ (to_size_t n)).

Definition subscript (n : Z) : M PointCloud PointT :=
  read_points (span_or_vector.subscript (to_size_t n)).

(** [back()]. *)
Definition back : M PointCloud PointT :=
  n <- size ;; read_points (span_or_vector.subscript (n - 1)).

(** The offset [row * this->width + column] as [at(int column, int row)]
    computes it: both [int] operands are converted to [unsigned int]. *)
Definition at_offset (c : PointCloud) (column row : Z) : Z :=
  add32 (mul32 (to_uint32 (to_int32 row)) (width c)) (to_uint32 (to_int32 column)).

(** [at(int column, int row)]. *)
Definition at_colrow (column row : Z) : M PointCloud PointT :=
  c <- get ;;
  if 1 <? height c
  then read_points (span_or_vector.at_ (at_offset c column row))
  else throw UnorganizedPointCloudException.

(** The offset [row * this->width + column] as
    [operator()(std::size_t column, std::size_t row)] computes it. *)
Definition call_offset (c : PointCloud) (column row : Z) : Z :=
  add64 (mul64 (to_size_t row) (width c)) (to_size_t column).

(** [operator()(std::size_t column, std::size_t row)]. *)
Definition call_colrow (column row : Z) : M PointCloud PointT :=
  c <- get ;;
  read_points (span_or_vector.subscript (call_offset c column row)).

(** *** Resizing *)

(** [resize(std::size_t count)]. *)
Definition resize (count : Z) : M PointCloud unit :=
  let count := to_size_t count in
  on_points (span_or_vector.resize count PointT_default) ;;
  c <- get ;;
  if negb (mul32 (width c) (height c) =? count)
  then set_width (to_uint32 count) ;; set_height 1
  else ret tt.

(** [resize(uindex_t new_width, uindex_t new_height)]; [uindex_t] is PCL's
    default, a 32-bit unsigned integer. *)
Definition resize_wh (new_width new_height : Z) : M PointCloud unit :=
  let new_width := to_uint32 new_width in
  let new_height := to_uint32 new_height in
  on_points (span_or_vector.resize (mul32 new_width new_height) PointT_default) ;;
  set_width new_width ;;
  set_height new_height.

(** [resize(index_t count, const PointT& value)]; [index_t] is PCL's
    default, a 32-bit signed integer: it is converted to [std::size_t] for
    the buffer and to [unsigned int] for the comparison and the width. *)
Definition resize_value (count : Z) (value : PointT) : M PointCloud unit :=
  let count := to_int32 count in
  on_points (span_or_vector.resize (to_size_t count) value) ;;
  c <- get ;;
  if negb (mul32 (width c) (height c) =? to_uint32 count)
  then set_width (to_uint32 count) ;; set_height 1
  else ret tt.

(** The product of two [index_t]; signed overflow is outside the contract. *)
Definition index_mul (a b : Z) : M PointCloud Z :=
  if in_int32 (a * b) then ret (a * b) else throw undefined_behaviour.

(** [resize(index_t new_width, index_t new_height, const PointT& value)]. *)
Definition resize_wh_value (new_width new_height : Z) (value : PointT) : M PointCloud unit :=
  let new_width := to_int32 new_width in
  let new_height := to_int32 new_height in
  n <- index_mul new_width new_height ;;
  on_points (span_or_vector.resize (to_size_t n) value) ;;
  set_width (to_uint32 new_width) ;;
  set_height (to_uint32 new_height).

(** *** Assignment *)

(** [assign(index_t count, const PointT& value)]. *)
Definition assign (count : Z) (value : PointT) : M PointCloud unit :=
  let count := to_int32 count in
  on_points (span_or_vector.assign (to_size_t count) value) ;;
  n <- size ;;
  set_width (to_uint32 n) ;;
  set_height 1.

(** [assign(index_t new_width, index_t new_height, const PointT& value)]. *)
Definition assign_wh (new_width new_height : Z) (value : PointT) : M PointCloud unit :=
  let new_width := to_int32 new_width in
  let new_height := to_int32 new_height in
  n <- index_mul new_width new_height ;;
  on_points (span_or_vector.assign (to_size_t n) value) ;;
  set_width (to_uint32 new_width) ;;
  set_height (to_uint32 new_height).

(** [assign(InputIterator first, InputIterator last)]. *)
Definition assign_range (range : list PointT) : M PointCloud unit :=
  on_points (span_or_vector.assign_range range) ;;
  n <- size ;;
  set_width (to_uint32 n) ;;
  set_height 1.

(** [assign(InputIterator first, InputIterator last, index_t new_width)]:
    [height = size() / width] is a [std::size_t] quotient stored in 32 bits. *)
Definition assign_range_width (range : list PointT) (new_width : Z) : M PointCloud unit :=
  let new_width := to_int32 new_width in
  if new_width =? 0
  then PCL_WARN warn_zero_width ;; assign_range range
  else
    on_points (span_or_vector.assign_range range) ;;
    set_width (to_uint32 new_width) ;;
    n <- size ;;
    c <- get ;;
    set_height (to_uint32 (n / width c)) ;;
    c <- get ;;
    n <- size ;;
    if negb (mul32 (width c) (height c) =? n)
    then
      PCL_WARN (warn_mismatch (width c) n) ;;
      set_width (to_uint32 n) ;;
      set_height 1
    else ret tt.

(** [assign(std::initializer_list<PointT> ilist)]. *)
Definition assign_ilist (ilist : list PointT) : M PointCloud unit :=
  on_points (span_or_vector.assign_range ilist) ;;
  n <- size ;;
  set_width (to_uint32 n) ;;
  set_height 1.

(** [assign(std::initializer_list<PointT> ilist, index_t new_width)]. *)
Definition assign_ilist_width (ilist : list PointT) (new_width : Z) : M PointCloud unit :=
  let new_width := to_int32 new_width in
  if new_width =? 0
  then PCL_WARN warn_zero_width ;; assign_ilist ilist
  else
    on_points (span_or_vector.assign_range ilist) ;;
    set_width (to_uint32 new_width) ;;
    n <- size ;;
    c <- get ;;
    set_height (to_uint32 (n / width c)) ;;
    c <- get ;;
    n <- size ;;
    if negb (mul32 (width c) (height c) =? n)
    then
      PCL_WARN (warn_mismatch (width c) n) ;;
      set_width (to_uint32 n) ;;
      set_height 1
    else ret tt.

(** *** Insertion at the end *)

(** [push_back(const PointT& pt)]. *)
Definition push_back (pt : PointT) : M PointCloud unit :=
  on_points (span_or_vector.push_back pt) ;;
  n <- size ;;
  set_width (to_uint32 n) ;;
  set_height 1.

(** [transient_push_back(const PointT& pt)]. *)
Definition transient_push_back (pt : PointT) : M PointCloud unit :=
  on_points (span_or_vector.push_back pt).

(** [emplace_back(Args&&... args)]; [pt] is the point built from [args]. *)
Definition emplace_back (pt : PointT) : M PointCloud PointT :=
  on_points (span_or_vector.push_back pt) ;;
  n <- size ;;
  set_width (to_uint32 n) ;;
  set_height 1 ;;
  back.

(** [transient_emplace_back(Args&&... args)]. *)
Definition transient_emplace_back (pt : PointT) : M PointCloud PointT :=
  on_points (span_or_vector.push_back pt) ;;
  back.

(** *** Insertion at a position *)

(** [insert(iterator position, const PointT& pt)]. *)
Definition insert (position : nat) (pt : PointT) : M PointCloud nat :=
  on_points (span_or_vector.insert position [pt]) ;;
  n <- size ;;
  set_width (to_uint32 n) ;;
  set_height 1 ;;
  ret position.

(** [transient_insert(iterator position, const PointT& pt)]. *)
Definition transient_insert (position : nat) (pt : PointT) : M PointCloud nat :=
  on_points (span_or_vector.insert position [pt]) ;;
  ret position.

(** [insert(iterator position, std::size_t n, const PointT& pt)]. *)
Definition insert_n (position : nat) (n : Z) (pt : PointT) : M PointCloud unit :=
  on_points (span_or_vector.insert position (repeat pt (Z.to_nat (to_size_t n)))) ;;
  n <- size ;;
  set_width (to_uint32 n) ;;
  set_height 1.

(** [transient_insert(iterator position, std::size_t n, const PointT& pt)]. *)
Definition transient_insert_n (position : nat) (n : Z) (pt : PointT) : M PointCloud unit :=
  on_points (span_or_vector.insert position (repeat pt (Z.to_nat (to_size_t n)))).

(** [insert(iterator position, InputIterator first, InputIterator last)]. *)
Definition insert_range (position : nat) (range : list PointT) : M PointCloud unit :=
  on_points (span_or_vector.insert position range) ;;
  n <- size ;;
  set_width (to_uint32 n) ;;
  set_height 1.

(** [transient_insert(iterator position, InputIterator first, InputIterator last)]. *)
Definition transient_insert_range (position : nat) (range : list PointT) : M PointCloud unit :=
  on_points (span_or_vector.insert position range).

(** [emplace(iterator position, Args&&... args)]. *)
Definition emplace (position : nat) (pt : PointT) : M PointCloud nat :=
  on_points (span_or_vector.insert position [pt]) ;;
  n <- size ;;
  set_width (to_uint32 n) ;;
  set_height 1 ;;
  ret position.

(** [transient_emplace(iterator position, Args&&... args)]. *)
Definition transient_emplace (position : nat) (pt : PointT) : M PointCloud nat :=
  on_points (span_or_vector.insert position [pt]) ;;
  ret position.

(** *** Erasure *)

(** [erase(iterator position)]. *)
Definition erase (position : nat) : M PointCloud nat :=
  on_points (span_or_vector.erase position) ;;
  n <- size ;;
  set_width (to_uint32 n) ;;
  set_height 1 ;;
  ret position.

(** [transient_erase(iterator position)]. *)
Definition transient_erase (position : nat) : M PointCloud nat :=
  on_points (span_or_vector.erase position) ;;
  ret position.

(** [erase(iterator first, iterator last)]. *)
Definition erase_range (first last : nat) : M PointCloud nat :=
  on_points (span_or_vector.erase_range first last) ;;
  n <- size ;;
  set_width (to_uint32 n) ;;
  set_height 1 ;;
  ret first.

(** [transient_erase(iterator first, iterator last)]. *)
Definition transient_erase_range (first last : nat) : M PointCloud nat :=
  on_points (span_or_vector.erase_range first last) ;;
  ret first.

(** [clear()]. *)
Definition clear : M PointCloud unit :=
  (fun c => Returned (with_points (span_or_vector.clear (points c)) c) [] tt) ;;
  set_width 0 ;;
  set_height 0.

(** *** Concatenation *)

(** [concatenate(pcl::PointCloud<PointT>& cloud1, const pcl::PointCloud<PointT>& cloud2)],
    run on [cloud1]. *)
Definition concatenate (cloud2 : PointCloud) : M PointCloud bool :=
  cloud1 <- get ;;
  set_header (with_stamp (Z.max (stamp (header cloud1)) (stamp (header cloud2)))
                (header cloud1)) ;;
  e <- end_ ;;
  insert_range e (contents cloud2) ;;
  n <- size ;;
  set_width (to_uint32 n) ;;
  set_height 1 ;;
  cloud1 <- get ;;
  set_is_dense (is_dense cloud1 && is_dense cloud2) ;;
  ret true.

(** A [const PointCloud&] argument of a call on some cloud: a reference to
    another cloud, or to the cloud of the call itself. *)
Inductive cloud_ref : Type :=
| other (c : PointCloud)
| this_cloud.

(** Reading through a reference, at the moment of the read. *)
Definition deref (r : cloud_ref) : M PointCloud PointCloud :=
  match r with
  | other c => ret c
  | this_cloud => get
  end.

(** The implicit copy assignment [operator=(const PointCloud& rhs)]:
    member-wise, in the order of declaration. *)
Definition copy_assign (rhs : PointCloud) : M PointCloud unit :=
  set_header (header rhs) ;;
  on_points (span_or_vector.copy_assign (points rhs)) ;;
  set_width (width rhs) ;;
  set_height (height rhs) ;;
  set_is_dense (is_dense rhs) ;;
  set_sensor_origin (sensor_origin_ rhs) ;;
  set_sensor_orientation (sensor_orientation_ rhs).

(** [concatenate(const PointCloud& cloud1, const PointCloud& cloud2, PointCloud& cloud_out)],
    run on [cloud_out]: [cloud_out = cloud1;] and then
    [concatenate(cloud_out, cloud2)], each argument being read through its
    reference when the statement that uses it runs. *)
Definition concatenate_out (cloud1 cloud2 : cloud_ref) : M PointCloud bool :=
  c1 <- deref cloud1 ;;
  copy_assign c1 ;;
  c2 <- deref cloud2 ;;
  concatenate c2.

(** [operator+=(const PointCloud& rhs)]. *)
Definition add_assign (rhs : PointCloud) : M PointCloud unit :=
  concatenate rhs ;; ret tt.

(** *** The mutating calls, by family *)

(** Dropping the value a member returns. *)
Definition void {A} (m : M PointCloud A) : M PointCloud unit :=
  _ <- m ;; ret tt.

(** The plain (non-transient) mutating calls, with their arguments. *)
Inductive plain_call : Type :=
| call_resize (count : Z)
| call_resize_wh (new_width new_height : Z)
| call_resize_value (count : Z) (value : PointT)
| call_resize_wh_value (new_width new_height : Z) (value : PointT)
| call_assign (count : Z) (value : PointT)
| call_assign_wh (new_width new_height : Z) (value : PointT)
| call_assign_range (range : list PointT)
| call_assign_range_width (range : list PointT) (new_width : Z)
| call_assign_ilist (ilist : list PointT)
| call_assign_ilist_width (ilist : list PointT) (new_width : Z)
| call_push_back (pt : PointT)
| call_emplace_back (pt : PointT)
| call_insert (position : nat) (pt : PointT)
| call_insert_n (position : nat) (n : Z) (pt : PointT)
| call_insert_range (position : nat) (range : list PointT)
| call_emplace (position : nat) (pt : PointT)
| call_erase (position : nat)
| call_erase_range (first last : nat)
| call_clear
| call_concatenate (cloud2 : PointCloud)
| call_concatenate_out (cloud1 cloud2 : cloud_ref).

Definition run_plain (m : plain_call) : M PointCloud unit :=
  match m with
  | call_resize count => resize count
  | call_resize_wh w h => resize_wh w h
  | call_resize_value count value => resize_value count value
  | call_resize_wh_value w h value => resize_wh_value w h value
  | call_assign count value => assign count value
  | call_assign_wh w h value => assign_wh w h value
  | call_assign_range range => assign_range range
  | call_assign_range_width range w => assign_range_width range w
  | call_assign_ilist ilist => assign_ilist ilist
  | call_assign_ilist_width ilist w => assign_ilist_width ilist w
  | call_push_back pt => push_back pt
  | call_emplace_back pt => void (emplace_back pt)
  | call_insert position pt => void (insert position pt)
  | call_insert_n position n pt => insert_n position n pt
  | call_insert_range position range => insert_range position range
  | call_emplace position pt => void (emplace position pt)
  | call_erase position => void (erase position)
  | call_erase_range first last => void (erase_range first last)
  | call_clear => clear
  | call_concatenate cloud2 => void (concatenate cloud2)
  | call_concatenate_out cloud1 cloud2 => void (concatenate_out cloud1 cloud2)
  end.

(** The calls that stay inside the C++ contract on a given cloud: iterators
    lie inside the buffer and no signed product overflows. *)
Definition in_contract (m : plain_call) (c : PointCloud) : bool :=
  let len := length (contents c) in
  match m with
  | call_resize_wh_value w h _ | call_assign_wh w h _ =>
      in_int32 (to_int32 w * to_int32 h)
  | call_insert position _ | call_insert_n position _ _
  | call_insert_range position _ | call_emplace position _ =>
      Nat.leb position len
  | call_erase position => Nat.ltb position len
  | call_erase_range first last => Nat.leb first last && Nat.leb last len
  | _ => true
  end.

(** The single-dimension calls among [resize], [assign], [insert] and
    [erase], and those of them that are a [resize]. *)
Definition single_dimension (m : plain_call) : bool :=
  match m with
  | call_resize _ | call_resize_value _ _
  | call_assign _ _ | call_assign_range _ | call_assign_ilist _
  | call_insert _ _ | call_insert_n _ _ _ | call_insert_range _ _
  | call_erase _ | call_erase_range _ _ => true
  | _ => false
  end.

Definition is_resize (m : plain_call) : bool :=
  match m with
  | call_resize _ | call_resize_value _ _ => true
  | _ => false
  end.

(** The length a call asks the buffer to take, for the calls that can make
    it longer. *)
Definition requested_length (m : plain_call) (c : PointCloud) : option Z :=
  let len := length_of c in
  match m with
  | call_resize count => Some (to_size_t count)
  | call_resize_wh w h => Some (mul32 (to_uint32 w) (to_uint32 h))
  | call_resize_value count _ | call_assign count _ =>
      Some (to_size_t (to_int32 count))
  | call_resize_wh_value w h _ | call_assign_wh w h _ =>
      Some (to_size_t (to_int32 w * to_int32 h))
  | call_assign_range range | call_assign_ilist range
  | call_assign_range_width range _ | call_assign_ilist_width range _ =>
      Some (Z.of_nat (length range))
  | call_push_back _ | call_emplace_back _
  | call_insert _ _ | call_emplace _ _ => Some (len + 1)
  | call_insert_n _ n _ => Some (len + to_size_t n)
  | call_insert_range _ range => Some (len + Z.of_nat (length range))
  | _ => None
  end.

(** A call is length-increasing on a cloud when it is inside the contract
    and asks for more elements than the buffer holds. *)
Definition length_increasing (m : plain_call) (c : PointCloud) : bool :=
  in_contract m c &&
  match requested_length m c with
  | Some n => length_of c <? n
  | None => false
  end.

(** The transient mutating calls, and the plain call each corresponds to. *)
Inductive transient_call : Type :=
| call_transient_push_back (pt : PointT)
| call_transient_emplace_back (pt : PointT)
| call_transient_insert (position : nat) (pt : PointT)
| call_transient_insert_n (position : nat) (n : Z) (pt : PointT)
| call_transient_insert_range (position : nat) (range : list PointT)
| call_transient_emplace (position : nat) (pt : PointT)
| call_transient_erase (position : nat)
| call_transient_erase_range (first last : nat).

Definition run_transient (m : transient_call) : M PointCloud unit :=
  match m with
  | call_transient_push_back pt => transient_push_back pt
  | call_transient_emplace_back pt => void (transient_emplace_back pt)
  | call_transient_insert position pt => void (transient_insert position pt)
  | call_transient_insert_n position n pt => transient_insert_n position n pt
  | call_transient_insert_range position range => transient_insert_range position range
  | call_transient_emplace position pt => void (transient_emplace position pt)
  | call_transient_erase position => void (transient_erase position)
  | call_transient_erase_range first last => void (transient_erase_range first last)
  end.

Definition plain_of (m : transient_call) : plain_call :=
  match m with
  | call_transient_push_back pt => call_push_back pt
  | call_transient_emplace_back pt => call_emplace_back pt
  | call_transient_insert position pt => call_insert position pt
  | call_transient_insert_n position n pt => call_insert_n position n pt
  | call_transient_insert_range position range => call_insert_range position range
  | call_transient_emplace position pt => call_emplace position pt
  | call_transient_erase position => call_erase position
  | call_transient_erase_range first last => call_erase_range first last
  end.

(** [c] is the concatenation of [a] and [b]: their points in order, as an
    unorganized cloud carrying the newest stamp and the conjunction of the
    density flags. *)
Definition concatenation_of (a b c : PointCloud) : Prop :=
  contents c = contents a ++ contents b
  /\ width c = length_of a + length_of b
  /\ height c = 1
  /\ stamp (header c) = Z.max (stamp (header a)) (stamp (header b))
  /\ is_dense c = (is_dense a && is_dense b)%bool.

(** *** Further members *)

(** [empty() const]. *)
Definition empty : M PointCloud bool :=
  c <- get ;; ret (span_or_vector.empty_ (points c)).

(** [front()]. *)
Definition front : M PointCloud PointT :=
  read_points (span_or_vector.subscript 0).

(** Running a member on a temporary object: the object of the call is
    untouched and the temporary, as the member leaves it, is the value. *)
Definition on_temporary {A} (tmp : PointCloud) (m : M PointCloud A)
  : M PointCloud PointCloud :=
  fun c =>
    match m tmp with
    | Returned tmp' w _ => Returned c w tmp'
    | Thrown _ w e => Thrown c w e
    end.

(** [operator+(const PointCloud& rhs)]: a copy of this cloud is made, the
    copy is extended by [operator+=] with [rhs], and the copy is returned. *)
Definition add (rhs : PointCloud) : M PointCloud PointCloud :=
  this <- get ;;
  on_temporary (PointCloud_copy this) (add_assign rhs).

(** The plain calls whose body ends in [width = size(); height = 1;]. *)
Definition collapsing (m : plain_call) : bool :=
  match m with
  | call_assign _ _ | call_assign_range _ | call_assign_ilist _
  | call_push_back _ | call_emplace_back _
  | call_insert _ _ | call_insert_n _ _ _ | call_insert_range _ _
  | call_emplace _ _ | call_erase _ | call_erase_range _ _
  | call_concatenate _ | call_concatenate_out _ _ => true
  | _ => false
  end.

End PointCloud.

Arguments PointCloud : clear implicits.
Arguments plain_call : clear implicits.
Arguments transient_call : clear implicits.

End pcl.

(** ** Concrete clouds *)

Module Examples.

(** Points are integers; the pose types are trivial. *)
Definition Cloud : Type := pcl.PointCloud Z unit unit.

Definition empty_cloud : Cloud := pcl.PointCloud_default tt tt.

(** An owning 3 x 2 grid of six points. *)
Definition grid_3x2 : Cloud :=
  pcl.with_points (span_or_vector.own_range [10; 11; 12; 13; 14; 15])
    (pcl.with_width 3 (pcl.with_height 2 empty_cloud)).

(** External storage holding 0, 1, 2, ... and a 3 x 1 view of it. *)
Definition storage (i : nat) : Z := Z.of_nat i.
Definition view_3x1 : Cloud := pcl.PointCloud_span tt tt storage 3 1.

(** An owning cloud of [n] copies of the point 0, unorganized. *)
Definition flat (n : Z) : Cloud :=
  pcl.with_points (span_or_vector.own n 0)
    (pcl.with_width (to_uint32 n) (pcl.with_height 1 empty_cloud)).

(** An owning [w] x [h] cloud of [n] points, point [i] being the number [i]. *)
Definition numbered (w h n : Z) : Cloud :=
  pcl.with_points
    (span_or_vector.own_range (map storage (seq 0 (Z.to_nat n))))
    (pcl.with_width w (pcl.with_height h empty_cloud)).

(** Two rows of [2^31 + 1] columns: an organized grid of [2^32 + 2] points. *)
Definition wide_two_rows : Cloud := numbered (two31 + 1) 2 (two32 + 2).

End Examples.

(** * Properties *)

Import pcl.

(** ** Integer conversions *)

Ltac int_lia := unfold two31, two32, two64 in *; lia.

Lemma to_uint32_range n : 0 <= to_uint32 n < two32.
Proof. unfold to_uint32. apply Z.mod_pos_bound. reflexivity. Qed.

Lemma to_size_t_range n : 0 <= to_size_t n < two64.
Proof. unfold to_size_t. apply Z.mod_pos_bound. reflexivity. Qed.

Lemma to_int32_range n : - two31 <= to_int32 n < two31.
Proof.
  unfold to_int32.
  pose proof (Z.mod_pos_bound (n + two31) two32 eq_refl). int_lia.
Qed.

Lemma to_uint32_nonneg n : 0 <= to_uint32 n.
Proof. apply to_uint32_range. Qed.

Lemma mul32_nonneg a b : 0 <= mul32 a b.
Proof. apply to_uint32_range. Qed.

Lemma to_size_t_nonneg n : 0 <= to_size_t n.
Proof. apply to_size_t_range. Qed.

Lemma to_uint32_small n : 0 <= n < two32 -> to_uint32 n = n.
Proof. intros H. unfold to_uint32. apply Z.mod_small; exact H. Qed.

Lemma to_size_t_small n : 0 <= n < two64 -> to_size_t n = n.
Proof. intros H. unfold to_size_t. apply Z.mod_small; exact H. Qed.

Lemma to_int32_small n : - two31 <= n < two31 -> to_int32 n = n.
Proof.
  intros H. unfold to_int32. rewrite Z.mod_small; int_lia.
Qed.

(** Converting an [int] to [unsigned int] keeps the residue modulo 2^32. *)
Lemma to_uint32_to_int32 n : to_uint32 (to_int32 n) = to_uint32 n.
Proof.
  unfold to_uint32, to_int32.
  rewrite Zminus_mod_idemp_l.
  replace (n + two31 - two31) with n by lia. reflexivity.
Qed.

Lemma mul32_to_uint32 a b : mul32 (to_uint32 a) (to_uint32 b) = mul32 a b.
Proof. unfold mul32, to_uint32. symmetry. apply Z.mul_mod. discriminate. Qed.

Lemma mul32_one n : 0 <= n < two32 -> mul32 (to_uint32 n) 1 = n.
Proof.
  intros H. unfold mul32.
  rewrite Z.mul_1_r, (to_uint32_small n H). exact (to_uint32_small n H).
Qed.

(** A negative [int] converted to [std::size_t] is at least [2^64 - 2^31]. *)
Lemma to_size_t_small_int p :
  - two31 <= p < two31 -> to_size_t p < two32 -> 0 <= p /\ to_size_t p = p.
Proof.
  unfold to_size_t. intros Hp H.
  destruct (Z.neg_nonneg_cases p) as [Hn|Hn].
  - exfalso.
    assert (E : p mod two64 = p + two64)
      by (symmetry; apply (Z.mod_unique _ _ (-1)); int_lia).
    int_lia.
  - split; [exact Hn|]. apply Z.mod_small. int_lia.
Qed.

Lemma in_int32_range p : in_int32 p = true -> - two31 <= p < two31.
Proof.
  unfold in_int32. intros H. apply andb_prop in H as [H1 H2].
  apply Z.leb_le in H1. apply Z.ltb_lt in H2. lia.
Qed.

Lemma negb_eqb_false a b : negb (a =? b) = false -> a = b.
Proof. intros H. apply negb_false_iff in H. now apply Z.eqb_eq. Qed.

Lemma negb_eqb_true a b : negb (a =? b) = true -> a <> b.
Proof. intros H. apply negb_true_iff in H. now apply Z.eqb_neq. Qed.

(** ** The buffer *)

Module sov := span_or_vector.

Section BufferFacts.
Context {T : Type}.
Implicit Types (b t : sov.t T) (l new : list T).

Lemma size_nonneg b : 0 <= sov.size b.
Proof. unfold sov.size. lia. Qed.

Lemma commit_inr b new t :
  sov.commit b new = inr t -> sov.elems t = new /\ sov.mode t = sov.mode b.
Proof.
  unfold sov.commit. destruct (sov.mode b) eqn:Hm.
  - intros H; inversion H; auto.
  - destruct (Nat.eqb _ _); intros H; inversion H; auto.
Qed.

Lemma commit_inl b new e :
  sov.commit b new = inl e ->
  e = capacity_violation /\ sov.mode b = sov.Borrowing
  /\ length new <> length (sov.elems b).
Proof.
  unfold sov.commit. destruct (sov.mode b) eqn:Hm; [discriminate|].
  destruct (Nat.eqb _ _) eqn:E; [discriminate|].
  apply Nat.eqb_neq in E. intros H; inversion H; auto.
Qed.

Lemma commit_owning b new :
  sov.mode b = sov.Owning -> sov.commit b new = inr (sov.mk sov.Owning new).
Proof. unfold sov.commit. intros ->. reflexivity. Qed.

Lemma commit_borrowing_changed b new :
  sov.mode b = sov.Borrowing -> length new <> length (sov.elems b) ->
  sov.commit b new = inl capacity_violation.
Proof.
  unfold sov.commit. intros -> H. apply Nat.eqb_neq in H. now rewrite H.
Qed.

Lemma resized_length (n : nat) (v : T) l :
  length (firstn n l ++ repeat v (n - length l)) = n.
Proof. rewrite length_app, length_firstn, repeat_length. lia. Qed.

Lemma resize_size n v b t :
  0 <= n -> sov.resize n v b = inr t -> sov.size t = n.
Proof.
  unfold sov.resize. intros Hn H. apply commit_inr in H as [He _].
  unfold sov.size. rewrite He, resized_length. apply Z2Nat.id, Hn.
Qed.

Lemma assign_size n v b t :
  0 <= n -> sov.assign n v b = inr t -> sov.size t = n.
Proof.
  unfold sov.assign. intros Hn H. apply commit_inr in H as [He _].
  unfold sov.size. rewrite He, repeat_length. apply Z2Nat.id, Hn.
Qed.

Lemma assign_range_elems l b t :
  sov.assign_range l b = inr t -> sov.elems t = l.
Proof. intros H. now apply commit_inr in H. Qed.

(** The last element after a [push_back] is the pushed one. *)
Lemma back_after_push l (x : T) :
  nth_error (l ++ [x]) (Z.to_nat (Z.of_nat (length (l ++ [x])) - 1)) = Some x.
Proof.
  rewrite length_app. cbn [length].
  replace (Z.to_nat (Z.of_nat (length l + 1) - 1)) with (length l) by lia.
  rewrite nth_error_app2, Nat.sub_diag by lia. reflexivity.
Qed.

End BufferFacts.

(** ** Running a member *)

Ltac unfold_members :=
  unfold run_plain, run_transient, void,
    resize, resize_wh, resize_value, resize_wh_value,
    assign, assign_wh, assign_range, assign_range_width, assign_ilist,
    assign_ilist_width, push_back, transient_push_back, emplace_back,
    transient_emplace_back, insert, transient_insert, insert_n,
    transient_insert_n, insert_range, transient_insert_range, emplace,
    transient_emplace, erase, transient_erase, erase_range,
    transient_erase_range, clear, concatenate, concatenate_out, copy_assign,
    deref, add_assign,
    at_colrow, call_colrow, at_, subscript, back, size, end_, index_mul.

Ltac unfold_monad :=
  unfold bind, ret, get, put, throw, PCL_WARN, on_points, read_points,
    set_header, set_width, set_height, set_is_dense, set_sensor_origin,
    set_sensor_orientation.

(** Split on the innermost scrutinee of the goal: the outcome of a buffer
    operation or a branch condition of the member. *)
Ltac case_scrutinee :=
  match goal with
  | |- context [match ?x with _ => _ end] =>
      lazymatch x with
      | context [match _ with _ => _ end] => fail
      | _ => let E := fresh "Hcase" in destruct x eqn:E; cbn
      end
  end.

Ltac run_members :=
  repeat (unfold_members; unfold_monad; cbn); repeat case_scrutinee.

Ltac nonneg :=
  first [apply to_size_t_nonneg | apply mul32_nonneg | apply to_uint32_nonneg].

(** Turn the successful resizes and fills in the context into the length
    they leave. *)
Ltac buffer_sizes :=
  repeat match goal with
  | H : sov.resize ?n _ _ = inr ?t |- _ =>
      let E := fresh "Hsize" in
      assert (E : sov.size t = n) by (eapply resize_size; [nonneg | exact H]);
      clear H
  | H : sov.assign ?n _ _ = inr ?t |- _ =>
      let E := fresh "Hsize" in
      assert (E : sov.size t = n) by (eapply assign_size; [nonneg | exact H]);
      clear H
  end.

(** ** The shape of the grid after a mutation *)

Section Shape.
Context {PointT Vector4f Quaternionf : Type}.
Variable PointT_default : PointT.
Abbreviation Cloud := (PointCloud PointT Vector4f Quaternionf).
Abbreviation Call := (plain_call PointT Vector4f Quaternionf).
Abbreviation TransientCall := (transient_call PointT).
Implicit Types (g : Cloud).

(** The product of two [index_t] that fits an [int] and, as a length, 32
    bits, is the 32-bit product of the two converted factors. *)
Lemma index_product_length a b :
  in_int32 (a * b) = true -> to_size_t (a * b) < two32 ->
  mul32 (to_uint32 a) (to_uint32 b) = to_size_t (a * b).
Proof.
  intros Hin Hlt. apply in_int32_range in Hin.
  destruct (to_size_t_small_int _ Hin Hlt) as [H0 ->].
  rewrite mul32_to_uint32. unfold mul32. apply to_uint32_small. int_lia.
Qed.

(** A plain call that returns normally leaves [width * height], computed in
    32 bits, equal to the length of the buffer when that length fits 32
    bits. *)
Lemma plain_call_invariant g (m : Call) :
  raised (run_plain PointT_default m g) = None ->
  length_of (final (run_plain PointT_default m g)) < two32 ->
  mul32 (width (final (run_plain PointT_default m g)))
        (height (final (run_plain PointT_default m g)))
  = length_of (final (run_plain PointT_default m g)).
Proof.
  destruct m; run_members; try discriminate; intros _; unfold length_of; cbn.
  all: try (intros H; apply mul32_one;
            match goal with t : sov.t _ |- _ => pose proof (size_nonneg t) end;
            lia).
  all: try (intros _; reflexivity).
  all: buffer_sizes; intros Hlt.
  all: repeat match goal with
         | H : negb (_ =? _) = false |- _ => apply negb_eqb_false in H
         end.
  - rewrite Hsize in Hlt |- *. apply mul32_one.
    pose proof (to_size_t_range count). lia.
  - congruence.
  - rewrite Hsize. reflexivity.
  - rewrite Hsize in Hlt |- *.
    destruct (to_size_t_small_int _ (to_int32_range count) Hlt) as [H0 ->].
    apply mul32_one. pose proof (to_int32_range count). int_lia.
  - rewrite Hsize in Hlt |- *.
    destruct (to_size_t_small_int _ (to_int32_range count) Hlt) as [H0 E].
    rewrite E. rewrite to_uint32_small in Hcase0; [exact Hcase0|].
    pose proof (to_int32_range count). int_lia.
  - rewrite Hsize in Hlt |- *. now apply index_product_length.
  - rewrite Hsize in Hlt |- *. now apply index_product_length.
  - exact Hcase1.
  - exact Hcase1.
Qed.

Lemma back_after_push_back (b t : sov.t PointT) (x : PointT) :
  sov.commit b (sov.elems b ++ [x]) = inr t ->
  sov.subscript (sov.size t - 1) t = inr x.
Proof.
  intros H. apply commit_inr in H as [He _].
  unfold sov.subscript, sov.size. rewrite He, back_after_push. reflexivity.
Qed.

(** C1 (as amended).  [isOrganized()] is [height > 1] for every grid, and
    after a plain mutating call (resize, assign, push_back, emplace_back,
    insert, emplace, erase, clear, concatenate) that returns normally and
    leaves fewer than 2^32 points, [width * height], computed in unsigned
    32-bit arithmetic as the code computes it, equals the buffer length. *)
Theorem C1_invariant_after_plain_calls g :
  (isOrganized g = true <-> 1 < height g) /\
  (forall m : Call,
     raised (run_plain PointT_default m g) = None ->
     length_of (final (run_plain PointT_default m g)) < two32 ->
     mul32 (width (final (run_plain PointT_default m g)))
           (height (final (run_plain PointT_default m g)))
     = length_of (final (run_plain PointT_default m g))).
Proof.
  split.
  - unfold isOrganized. apply Z.ltb_lt.
  - intros m. apply plain_call_invariant.
Qed.

(** C8.  A transient call performs the buffer mutation of the plain call it
    corresponds to (same buffer afterwards, same exception if any) and leaves
    [width] and [height] as they were before the call. *)
Theorem C8_transient_calls_keep_shape g (m : TransientCall) :
  points (final (run_transient m g))
    = points (final (run_plain PointT_default (plain_of m) g))
  /\ raised (run_transient m g)
    = raised (run_plain PointT_default (plain_of m) g)
  /\ width (final (run_transient m g)) = width g
  /\ height (final (run_transient m g)) = height g.
Proof.
  destruct m; repeat (unfold_members; unfold_monad; cbn); unfold length_of; cbn.
  all: repeat case_scrutinee; auto.
Qed.

(** C9.  [clear()] empties the point buffer and sets [width] and [height] to
    0; the header, [is_dense] and the sensor pose are unchanged. *)
Theorem C9_clear_frame g :
  raised (clear g) = None
  /\ contents (final (clear g)) = []
  /\ width (final (clear g)) = 0
  /\ height (final (clear g)) = 0
  /\ header (final (clear g)) = header g
  /\ is_dense (final (clear g)) = is_dense g
  /\ sensor_origin_ (final (clear g)) = sensor_origin_ g
  /\ sensor_orientation_ (final (clear g)) = sensor_orientation_ g.
Proof. repeat split. Qed.

Lemma inserted_length (pos : nat) (l xs : list PointT) :
  (pos <= length l)%nat ->
  length (firstn pos l ++ xs ++ skipn pos l) = (length l + length xs)%nat.
Proof.
  intros H. rewrite !length_app, length_firstn, length_skipn. lia.
Qed.

(** C2.  On a borrowing grid every length-increasing call (push_back,
    emplace_back, insert, emplace, resize to a larger size and also assign
    of a longer range) raises the capacity error and leaves the cloud, hence
    the contents and the length of its buffer, unchanged. *)
Theorem C2_borrowing_rejects_growth g (m : Call) :
  sov.mode (points g) = sov.Borrowing ->
  length_increasing m g = true ->
  raised (run_plain PointT_default m g) = Some capacity_violation
  /\ contents (final (run_plain PointT_default m g)) = contents g
  /\ length_of (final (run_plain PointT_default m g)) = length_of g
  /\ final (run_plain PointT_default m g) = g.
Proof.
  intros Hb Hinc. unfold length_increasing in Hinc.
  apply andb_prop in Hinc as [Hin Hlt].
  assert (E : raised (run_plain PointT_default m g) = Some capacity_violation
              /\ final (run_plain PointT_default m g) = g).
  { destruct m; cbn in Hlt; try discriminate Hlt; apply Z.ltb_lt in Hlt;
      unfold length_of, sov.size, in_contract, contents in *;
      repeat (unfold_members; unfold_monad; cbn);
      unfold sov.resize, sov.assign, sov.assign_range, sov.push_back,
        sov.insert;
      rewrite ?Hin; cbn;
      try (destruct (to_int32 new_width =? 0); cbn);
      (rewrite commit_borrowing_changed; [cbn; auto | exact Hb | ]).
    all: rewrite ?resized_length, ?inserted_length, ?length_app, ?repeat_length
      by (apply Nat.leb_le; exact Hin); cbn [length]; try lia.
    all: apply Nat.leb_le in Hin; rewrite length_firstn, length_skipn; lia.
  }
  destruct E as [Hr Hf]. rewrite Hr, Hf. auto.
Qed.

Ltac bool_hyps :=
  repeat match goal with
  | H : negb (_ =? _) = true |- _ => apply negb_eqb_true in H
  | H : negb (_ =? _) = false |- _ => apply negb_eqb_false in H
  | H : (_ =? _) = true |- _ => apply Z.eqb_eq in H
  | H : (_ =? _) = false |- _ => apply Z.eqb_neq in H
  end.

(** C3 (as amended).  After a plain single-dimension call that returns
    normally and leaves a length below 2^32: [resize] leaves [width] and
    [height] unchanged when the new length equals the old [width * height]
    (computed in 32 bits) and otherwise sets [width] to the new length and
    [height] to 1; [assign], [insert] and [erase] always set [width] to the
    new length and [height] to 1. *)
Theorem C3_single_dimension_shape g (m : Call) :
  single_dimension m = true ->
  raised (run_plain PointT_default m g) = None ->
  length_of (final (run_plain PointT_default m g)) < two32 ->
  if is_resize m
     && (mul32 (width g) (height g)
         =? length_of (final (run_plain PointT_default m g)))
  then width (final (run_plain PointT_default m g)) = width g
       /\ height (final (run_plain PointT_default m g)) = height g
  else width (final (run_plain PointT_default m g))
       = length_of (final (run_plain PointT_default m g))
       /\ height (final (run_plain PointT_default m g)) = 1.
Proof.
  intros Hsingle.
  destruct m; try discriminate Hsingle; clear Hsingle; cbn [is_resize andb].
  all: run_members; try discriminate; intros _; unfold length_of; cbn.
  all: try (intros H; split; [apply to_uint32_small|reflexivity];
            match goal with t : sov.t _ |- _ => pose proof (size_nonneg t) end;
            lia).
  all: buffer_sizes; intros Hlt; rewrite Hsize in Hlt; try rewrite Hsize.
  all: unfold length_of in Hcase1; cbn in Hcase1; rewrite Hsize in Hcase1.
  all: bool_hyps.
  all: try (destruct (to_size_t_small_int _ (to_int32_range count) Hlt)
              as [Hpos Eint];
            rewrite Eint in *;
            assert (Eu : to_uint32 (to_int32 count) = to_int32 count)
              by (apply to_uint32_small; int_lia);
            rewrite Eu in *).
  all: try (exfalso; congruence); try (split; reflexivity).
  all: split; try reflexivity; apply to_uint32_small;
    pose proof (to_size_t_nonneg count); lia.
Qed.

End Shape.

(** ** Concatenation *)

Section Concatenation.
Context {PointT Vector4f Quaternionf : Type}.
Abbreviation Cloud := (PointCloud PointT Vector4f Quaternionf).

Lemma insert_at_end (l xs : list PointT) :
  firstn (length l) l ++ xs ++ skipn (length l) l = l ++ xs.
Proof. now rewrite firstn_all, skipn_all, app_nil_r. Qed.

(** What [concatenate] leaves in an owning [cloud1], with the width as the
    code stores it: the combined length converted to 32 bits. *)
Lemma concatenate_run (cloud1 cloud2 : Cloud) :
  sov.mode (points cloud1) = sov.Owning ->
  exists c,
    concatenate cloud2 cloud1 = Returned c [] true
    /\ contents c = contents cloud1 ++ contents cloud2
    /\ width c = to_uint32 (length_of cloud1 + length_of cloud2)
    /\ height c = 1
    /\ stamp (header c) = Z.max (stamp (header cloud1)) (stamp (header cloud2))
    /\ is_dense c = is_dense cloud1 && is_dense cloud2.
Proof.
  intros Hown.
  repeat (unfold_members; unfold_monad; cbn).
  unfold sov.insert, contents, length_of, sov.size. cbn.
  rewrite Nat.leb_refl, insert_at_end, (commit_owning _ _ Hown). cbn.
  eexists. split; [reflexivity|]. cbn.
  rewrite length_app, Nat2Z.inj_add. repeat split; reflexivity.
Qed.

(** Copy assignment onto an owning cloud leaves a copy of the right-hand
    side, whatever the cloud held before. *)
Lemma copy_assign_owning (rhs cloud_out : Cloud) :
  sov.mode (points cloud_out) = sov.Owning ->
  copy_assign rhs cloud_out = Returned (PointCloud_copy rhs) [] tt.
Proof.
  intros Hown.
  unfold copy_assign, sov.copy_assign.
  unfold_monad. cbn. rewrite (commit_owning _ _ Hown). cbn.
  destruct rhs as [hd [md el] w h d so sq]; reflexivity.
Qed.

(** Assigning an owning cloud to itself changes nothing. *)
Lemma copy_assign_self (cloud1 : Cloud) :
  sov.mode (points cloud1) = sov.Owning ->
  copy_assign cloud1 cloud1 = Returned cloud1 [] tt.
Proof.
  intros Hown. rewrite (copy_assign_owning _ _ Hown).
  destruct cloud1 as [hd [md el] w h d so sq]. cbn in Hown. subst md.
  reflexivity.
Qed.

(** The three-argument form on an owning [cloud_out] that is neither of its
    two inputs: the same run as [concatenate] on a copy of [cloud1]. *)
Lemma concatenate_out_other (cloud1 cloud2 cloud_out : Cloud) :
  sov.mode (points cloud_out) = sov.Owning ->
  concatenate_out (other cloud1) (other cloud2) cloud_out
  = concatenate cloud2 (PointCloud_copy cloud1).
Proof.
  intros Hown. unfold concatenate_out, deref.
  unfold bind at 1 2 3, ret. rewrite (copy_assign_owning _ _ Hown).
  now destruct (concatenate _ _).
Qed.

(** The three-argument form whose output is its first input, on an owning
    cloud: the same run as the in-place [concatenate]. *)
Lemma concatenate_out_onto_first (cloud1 cloud2 : Cloud) :
  sov.mode (points cloud1) = sov.Owning ->
  concatenate_out this_cloud (other cloud2) cloud1 = concatenate cloud2 cloud1.
Proof.
  intros Hown. unfold concatenate_out, deref.
  unfold bind at 1 2 3, ret, get. rewrite (copy_assign_self _ Hown).
  now destruct (concatenate _ _).
Qed.

(** The three-argument form whose output is its second input, on an owning
    cloud: [cloud2] is read after [cloud_out = cloud1], so the run is that of
    [concatenate] of a copy of [cloud1] with itself. *)
Lemma concatenate_out_onto_second (cloud1 cloud2 : Cloud) :
  sov.mode (points cloud2) = sov.Owning ->
  concatenate_out (other cloud1) this_cloud cloud2
  = concatenate (PointCloud_copy cloud1) (PointCloud_copy cloud1).
Proof.
  intros Hown. unfold concatenate_out, deref.
  unfold bind at 1 2 3, ret, get. rewrite (copy_assign_owning _ _ Hown).
  now destruct (concatenate _ _).
Qed.

Lemma concatenate_out_run (cloud1 cloud2 cloud_out : Cloud) :
  sov.mode (points cloud_out) = sov.Owning ->
  exists c,
    concatenate_out (other cloud1) (other cloud2) cloud_out = Returned c [] true
    /\ contents c = contents cloud1 ++ contents cloud2
    /\ width c = to_uint32 (length_of cloud1 + length_of cloud2)
    /\ height c = 1
    /\ stamp (header c) = Z.max (stamp (header cloud1)) (stamp (header cloud2))
    /\ is_dense c = is_dense cloud1 && is_dense cloud2.
Proof.
  intros Hown. rewrite (concatenate_out_other _ _ _ Hown).
  exact (concatenate_run (PointCloud_copy cloud1) cloud2 eq_refl).
Qed.

(** When the output of the three-argument form is its second input, the
    points of [cloud2] are lost: the output holds the points of [cloud1]
    twice, under the stamp and the density flag of [cloud1]. *)
Lemma concatenate_out_aliased_run (cloud1 cloud2 : Cloud) :
  sov.mode (points cloud2) = sov.Owning ->
  exists c,
    concatenate_out (other cloud1) this_cloud cloud2 = Returned c [] true
    /\ contents c = contents cloud1 ++ contents cloud1
    /\ width c = to_uint32 (length_of cloud1 + length_of cloud1)
    /\ height c = 1
    /\ stamp (header c) = stamp (header cloud1)
    /\ is_dense c = is_dense cloud1.
Proof.
  intros Hown. rewrite (concatenate_out_onto_second _ _ Hown).
  destruct (concatenate_run (PointCloud_copy cloud1) (PointCloud_copy cloud1)
              eq_refl) as (c & Hrun & Hc & Hw & Hh & Hs & Hd).
  exists c. split; [exact Hrun|].
  cbn in Hs, Hd. rewrite Z.max_id in Hs. rewrite andb_diag in Hd. auto.
Qed.

(** C4 (as amended).  When the combined length is below 2^32, the
    three-argument [concatenate(a, b, out)] into an owning [out] that is
    another object than [a] and [b], and also into [out] being [a] itself, and
    the in-place [concatenate(a, b)] on an owning [a], return [true] and
    leave a's points followed by b's points, [width] equal to the combined
    length, [height] equal to 1, the newer of the two stamps and the
    conjunction of the two [is_dense] flags. *)
Theorem C4_concatenate (cloud1 cloud2 : Cloud) :
  length_of cloud1 + length_of cloud2 < two32 ->
  (forall cloud_out : Cloud,
     sov.mode (points cloud_out) = sov.Owning ->
     exists c, concatenate_out (other cloud1) (other cloud2) cloud_out
               = Returned c [] true
               /\ concatenation_of cloud1 cloud2 c)
  /\ (sov.mode (points cloud1) = sov.Owning ->
      (exists c, concatenate cloud2 cloud1 = Returned c [] true
                 /\ concatenation_of cloud1 cloud2 c)
      /\ (exists c, concatenate_out this_cloud (other cloud2) cloud1
                    = Returned c [] true
                    /\ concatenation_of cloud1 cloud2 c)).
Proof.
  intros Hlt.
  assert (Hw : to_uint32 (length_of cloud1 + length_of cloud2)
               = length_of cloud1 + length_of cloud2).
  { apply to_uint32_small. unfold length_of in *.
    pose proof (size_nonneg (points cloud1)).
    pose proof (size_nonneg (points cloud2)). lia. }
  split.
  - intros cloud_out Hout.
    destruct (concatenate_out_run cloud1 cloud2 cloud_out Hout)
      as (c & Hrun & Hc & Hwidth & Hrest).
    exists c. split; [exact Hrun|]. unfold concatenation_of.
    rewrite Hwidth, Hw. auto.
  - intros Hown.
    destruct (concatenate_run cloud1 cloud2 Hown)
      as (c & Hrun & Hc & Hwidth & Hrest).
    split; exists c; (split; [|unfold concatenation_of; rewrite Hwidth, Hw; auto]).
    + exact Hrun.
    + rewrite (concatenate_out_onto_first _ _ Hown). exact Hrun.
Qed.

End Concatenation.

(** ** Two-dimensional access *)

Section Access.
Context {PointT Vector4f Quaternionf : Type}.
Abbreviation Cloud := (PointCloud PointT Vector4f Quaternionf).
Implicit Types (g : Cloud).

(** The offset of the checked access is [row * width + column] modulo 2^32. *)
Lemma at_offset_mod g column row :
  at_offset g column row = (row * width g + column) mod two32.
Proof.
  unfold at_offset, add32, mul32. rewrite !to_uint32_to_int32.
  unfold to_uint32.
  rewrite Z.mul_mod_idemp_l by discriminate.
  rewrite <- Z.add_mod by discriminate. reflexivity.
Qed.

(** The offset of the unchecked access is the same expression modulo 2^64. *)
Lemma call_offset_mod g column row :
  call_offset g column row = (row * width g + column) mod two64.
Proof.
  unfold call_offset, add64, mul64, to_size_t.
  rewrite Z.mul_mod_idemp_l by discriminate.
  rewrite <- Z.add_mod by discriminate. reflexivity.
Qed.

Lemma access_offsets g column row :
  at_offset g column row = (row * width g + column) mod two32
  /\ call_offset g column row = (row * width g + column) mod two64.
Proof. split; [apply at_offset_mod | apply call_offset_mod]. Qed.

Lemma at_in_range (b : sov.t PointT) (i : Z) :
  0 <= i < sov.size b ->
  exists p, nth_error (sov.elems b) (Z.to_nat i) = Some p /\ sov.at_ i b = inr p.
Proof.
  intros H. unfold sov.at_, sov.size in *.
  destruct (nth_error (sov.elems b) (Z.to_nat i)) as [p|] eqn:E.
  - exists p. split; [reflexivity|].
    destruct (Z.ltb_spec i (Z.of_nat (length (sov.elems b)))); [reflexivity|lia].
  - apply nth_error_None in E. lia.
Qed.

Lemma at_out_of_range (b : sov.t PointT) (i : Z) :
  sov.size b <= i -> sov.at_ i b = inl out_of_range.
Proof.
  intros H. unfold sov.at_.
  destruct (Z.ltb_spec i (sov.size b)); [lia|reflexivity].
Qed.

(** C5 (as amended).  [at(column, row)] raises the unorganized-access error
    when [height <= 1]; when [height > 1] it accesses the offset
    [row * width + column] computed in unsigned 32-bit arithmetic, returning
    that element when the offset is below the length and raising the
    out-of-range error otherwise.  [operator()(column, row)] makes neither
    check and computes the same expression in [std::size_t] arithmetic; the
    two offsets coincide whenever [row * width + column] lies in [0, 2^32). *)
Theorem C5_access_2d g column row :
  (height g <= 1 ->
   at_colrow column row g = Thrown g [] UnorganizedPointCloudException)
  /\ (1 < height g -> at_offset g column row < length_of g ->
      exists p,
        nth_error (contents g) (Z.to_nat (at_offset g column row)) = Some p
        /\ at_colrow column row g = Returned g [] p)
  /\ (1 < height g -> length_of g <= at_offset g column row ->
      at_colrow column row g = Thrown g [] out_of_range)
  /\ at_offset g column row = (row * width g + column) mod two32
  /\ call_offset g column row = (row * width g + column) mod two64
  /\ call_colrow column row g
     = match nth_error (contents g) (Z.to_nat (call_offset g column row)) with
       | Some p => Returned g [] p
       | None => Thrown g [] undefined_behaviour
       end
  /\ (0 <= row * width g + column < two32 ->
      at_offset g column row = row * width g + column
      /\ call_offset g column row = row * width g + column).
Proof.
  repeat apply conj.
  - intros H. unfold at_colrow, bind, get, throw.
    destruct (Z.ltb_spec 1 (height g)); [lia|reflexivity].
  - intros H Hlt. unfold at_colrow, bind, get, read_points, length_of, contents in *.
    destruct (Z.ltb_spec 1 (height g)); [|lia].
    destruct (at_in_range (points g) (at_offset g column row)) as (p & Hp & Hat).
    { split; [|exact Hlt]. unfold at_offset, add32. apply to_uint32_nonneg. }
    exists p. split; [exact Hp|]. rewrite Hat. reflexivity.
  - intros H Hge. unfold at_colrow, bind, get, read_points, length_of in *.
    destruct (Z.ltb_spec 1 (height g)); [|lia].
    rewrite at_out_of_range by exact Hge. reflexivity.
  - apply at_offset_mod.
  - apply call_offset_mod.
  - unfold call_colrow, bind, get, read_points, sov.subscript, contents.
    destruct (nth_error _ _); reflexivity.
  - intros H. split.
    + rewrite at_offset_mod. apply Z.mod_small. exact H.
    + rewrite call_offset_mod. apply Z.mod_small. int_lia.
Qed.

End Access.

(** ** Width-qualified assignment *)

Section AssignWidth.
Context {PointT Vector4f Quaternionf : Type}.
Abbreviation Cloud := (PointCloud PointT Vector4f Quaternionf).
Implicit Types (g : Cloud) (range : list PointT) (t : sov.t PointT).

Lemma assign_range_size range (b : sov.t PointT) t n :
  sov.assign_range range b = inr t -> Z.of_nat (length range) = n ->
  sov.size t = n.
Proof.
  intros H <-. apply assign_range_elems in H. unfold sov.size. now rewrite H.
Qed.

(** The three normal outcomes of the width-qualified [assign], and the
    exceptional one. *)
Lemma assign_range_width_zero g range new_width t n :
  to_int32 new_width = 0 ->
  sov.assign_range range (points g) = inr t ->
  Z.of_nat (length range) = n ->
  assign_range_width range new_width g
  = Returned (with_height 1 (with_width (to_uint32 n) (with_points t g)))
      [warn_zero_width] tt.
Proof.
  intros Hz Ht Hn. apply (assign_range_size _ _ _ _ Ht) in Hn.
  repeat (unfold_members; unfold_monad; cbn). rewrite Hz. cbn.
  rewrite Ht. unfold length_of. cbn. rewrite Hn. reflexivity.
Qed.

Lemma assign_range_width_organized g range new_width t n :
  to_int32 new_width <> 0 ->
  sov.assign_range range (points g) = inr t ->
  Z.of_nat (length range) = n ->
  mul32 (to_uint32 (to_int32 new_width))
        (to_uint32 (n / to_uint32 (to_int32 new_width))) = n ->
  assign_range_width range new_width g
  = Returned (with_height (to_uint32 (n / to_uint32 (to_int32 new_width)))
                (with_width (to_uint32 (to_int32 new_width)) (with_points t g)))
      [] tt.
Proof.
  intros Hz Ht Hn Heq. apply (assign_range_size _ _ _ _ Ht) in Hn.
  apply Z.eqb_neq in Hz.
  repeat (unfold_members; unfold_monad; cbn). rewrite Hz. cbn.
  rewrite Ht. unfold length_of. cbn. rewrite Hn, Heq, Z.eqb_refl. reflexivity.
Qed.

Lemma assign_range_width_fallback g range new_width t n :
  to_int32 new_width <> 0 ->
  sov.assign_range range (points g) = inr t ->
  Z.of_nat (length range) = n ->
  mul32 (to_uint32 (to_int32 new_width))
        (to_uint32 (n / to_uint32 (to_int32 new_width))) <> n ->
  assign_range_width range new_width g
  = Returned (with_height 1 (with_width (to_uint32 n) (with_points t g)))
      [warn_mismatch (to_uint32 (to_int32 new_width)) n] tt.
Proof.
  intros Hz Ht Hn Hne. apply (assign_range_size _ _ _ _ Ht) in Hn.
  apply Z.eqb_neq in Hz. apply Z.eqb_neq in Hne.
  repeat (unfold_members; unfold_monad; cbn). rewrite Hz. cbn.
  rewrite Ht. unfold length_of. cbn. rewrite Hn, Hne. reflexivity.
Qed.

Lemma assign_range_width_raises g range new_width e :
  sov.assign_range range (points g) = inl e ->
  raised (assign_range_width range new_width g) = Some e
  /\ final (assign_range_width range new_width g) = g.
Proof.
  intros He. repeat (unfold_members; unfold_monad; cbn).
  destruct (to_int32 new_width =? 0); cbn; rewrite He; auto.
Qed.

(** Below 2^32 a positive width divides the size exactly when the 32-bit
    product of the width and the stored quotient gives the size back. *)
Lemma quotient_product n w :
  0 <= n < two32 -> 0 < w < two32 ->
  to_uint32 (n / w) = n / w
  /\ (mul32 w (n / w) = n <-> n mod w = 0).
Proof.
  intros Hn Hw.
  assert (Hq : 0 <= n / w <= n).
  { split; [apply Z.div_pos; lia|].
    apply Z.div_le_upper_bound; [lia|]. nia. }
  assert (Hp : 0 <= w * (n / w) <= n).
  { split; [nia|]. apply Z.mul_div_le. lia. }
  split.
  - apply to_uint32_small. lia.
  - unfold mul32. rewrite to_uint32_small by lia.
    pose proof (Z.div_mod n w ltac:(lia)). lia.
Qed.

(** C6 (as amended).  For an assigned size below 2^32 and a non-negative
    [new_width], [assign(first, last, new_width)] and its initializer-list
    twin raise exactly when the plain [assign(first, last)] does, never on
    an owning grid; when they return, the points are assigned, and [width]
    is [new_width] with [height = size / new_width] and no diagnostic when
    [new_width] is nonzero and divides the size evenly, while otherwise
    [width] is the size, [height] is 1 and one diagnostic is emitted. *)
Theorem C6_assign_with_width g range new_width :
  Z.of_nat (length range) < two32 ->
  0 <= new_width < two31 ->
  assign_ilist_width range new_width g = assign_range_width range new_width g
  /\ raised (assign_range_width range new_width g)
     = raised (assign_range range g)
  /\ (sov.mode (points g) = sov.Owning ->
      raised (assign_range_width range new_width g) = None)
  /\ (raised (assign_range_width range new_width g) = None ->
      contents (final (assign_range_width range new_width g)) = range
      /\ if negb (new_width =? 0)
            && (Z.of_nat (length range) mod new_width =? 0)
         then width (final (assign_range_width range new_width g)) = new_width
              /\ height (final (assign_range_width range new_width g))
                 = Z.of_nat (length range) / new_width
              /\ emitted (assign_range_width range new_width g) = []
         else width (final (assign_range_width range new_width g))
              = Z.of_nat (length range)
              /\ height (final (assign_range_width range new_width g)) = 1
              /\ emitted (assign_range_width range new_width g)
                 = [if new_width =? 0 then warn_zero_width
                    else warn_mismatch new_width (Z.of_nat (length range))]).
Proof.
  intros Hn Hw.
  assert (Hi : to_int32 new_width = new_width)
    by (apply to_int32_small; int_lia).
  assert (Hu : to_uint32 new_width = new_width)
    by (apply to_uint32_small; int_lia).
  assert (Hnn : to_uint32 (Z.of_nat (length range)) = Z.of_nat (length range))
    by (apply to_uint32_small; lia).
  split; [reflexivity|].
  destruct (sov.assign_range range (points g)) as [e|t] eqn:Ht.
  - destruct (assign_range_width_raises g range new_width e Ht) as [Hr Hf].
    rewrite Hr. repeat split.
    + unfold assign_range, bind, on_points. rewrite Ht. reflexivity.
    + intros Hown. unfold sov.assign_range in Ht.
      rewrite (commit_owning _ _ Hown) in Ht. discriminate.
    + discriminate.
    + discriminate.
  - assert (Hplain : raised (assign_range range g) = None).
    { unfold assign_range, bind, on_points. rewrite Ht. reflexivity. }
    rewrite Hplain.
    assert (Hc : sov.elems t = range) by (apply (assign_range_elems _ _ _ Ht)).
    destruct (Z.eqb_spec new_width 0) as [Hz|Hz]; cbn [negb andb].
    + rewrite (assign_range_width_zero g range new_width t _
                 ltac:(congruence) Ht eq_refl).
      cbn. rewrite Hnn. unfold contents. cbn. auto 10.
    + pose proof (quotient_product (Z.of_nat (length range)) new_width
                    ltac:(lia) ltac:(int_lia)) as [Hq Hdiv].
      destruct (Z.eqb_spec (Z.of_nat (length range) mod new_width) 0) as [Hm|Hm].
      * rewrite (assign_range_width_organized g range new_width t _
                   ltac:(congruence) Ht eq_refl);
          rewrite Hi, Hu, Hq; [|apply Hdiv; exact Hm].
        cbn. unfold contents. cbn. auto 10.
      * rewrite (assign_range_width_fallback g range new_width t _
                   ltac:(congruence) Ht eq_refl);
          rewrite ?Hi, ?Hu, ?Hq; [|intros Habs; apply Hm, Hdiv, Habs].
        cbn. rewrite Hnn. unfold contents. cbn. auto 10.
Qed.

End AssignWidth.

(** ** Construction *)

Section Construction.
Context {PointT Vector4f Quaternionf : Type}.
Variable PointT_default : PointT.
Variable Vector4f_Zero : Vector4f.
Variable Quaternionf_Identity : Quaternionf.
Abbreviation Cloud := (PointCloud PointT Vector4f Quaternionf).
Implicit Types (g pc : Cloud) (indices : list Z).

Lemma update_middle (pre post : list PointT) (x y : PointT) :
  sov.update (length pre) y (pre ++ x :: post) = pre ++ y :: post.
Proof. induction pre as [|a pre IH]; cbn; [reflexivity|]. now rewrite IH. Qed.

(** The copy loop, started at position [length pre] of a buffer
    [pre ++ post] with one slot of [post] per remaining index, fills those
    slots with the indexed points of [pc]. *)
Lemma copy_indexed_run pc indices :
  Forall (fun i => 0 <= i < two64) indices ->
  Forall (fun i => 0 <= i < length_of pc) indices ->
  forall (pre post : list PointT) (c : Cloud),
    contents c = pre ++ post ->
    length post = length indices ->
    exists filled,
      copy_indexed pc indices (Z.of_nat (length pre)) c
      = Returned (with_points (sov.mk (sov.mode (points c)) (pre ++ filled)) c)
          [] tt
      /\ length filled = length indices
      /\ forall i idx, nth_error indices i = Some idx ->
           nth_error filled i = nth_error (contents pc) (Z.to_nat idx).
Proof.
  intros Hty Hin. induction indices as [|idx rest IH]; intros pre post c Hc Hlen.
  - destruct post; [|discriminate]. exists []. cbn. repeat split.
    + unfold ret. rewrite app_nil_r in *. destruct c as [? [m l] ? ? ? ? ?].
      unfold contents in Hc. cbn in *. now subst.
    + intros [|i] idx H; discriminate.
  - destruct post as [|x post]; [discriminate|]. injection Hlen as Hlen.
    inversion Hty as [|? ? Hidx Hty']; subst.
    inversion Hin as [|? ? Hlt Hin']; subst.
    destruct (nth_error (contents pc) (Z.to_nat idx)) as [p|] eqn:Hp.
    2:{ apply nth_error_None in Hp. unfold length_of, sov.size, contents in *. lia. }
    specialize (IH Hty' Hin' (pre ++ [p]) post
                  (with_points (sov.mk (sov.mode (points c)) ((pre ++ [p]) ++ post)) c)
                  eq_refl Hlen).
    destruct IH as (filled & Hrun & Hfl & Hnth).
    exists (p :: filled). split; [|split].
    + cbn [copy_indexed]. unfold bind at 1, read_from.
      unfold sov.subscript. rewrite (to_size_t_small idx Hidx).
      unfold contents in Hp. rewrite Hp.
      unfold bind at 1, on_points, sov.store.
      unfold contents in Hc. rewrite Hc, Nat2Z.id.
      assert (Hb : Nat.ltb (length pre) (length (pre ++ x :: post)) = true).
      { apply Nat.ltb_lt. rewrite length_app. cbn. lia. }
      rewrite Hb, update_middle.
      replace (Z.of_nat (length pre) + 1) with (Z.of_nat (length (pre ++ [p])))
        by (rewrite length_app; cbn; lia).
      replace (pre ++ p :: post) with ((pre ++ [p]) ++ post)
        by (now rewrite <- app_assoc).
      rewrite Hrun. cbn. rewrite <- app_assoc. reflexivity.
    + cbn. now rewrite Hfl.
    + intros [|i] j H; cbn in *.
      * injection H as <-. symmetry. exact Hp.
      * apply Hnth, H.
Qed.

(** C7 (as amended).  For an index sequence of [index_t] values, each
    non-negative and smaller than the source length, whose length does not
    exceed the source length (the constructor asserts it) and is below 2^32,
    the subset constructor builds an owning grid with one point per index,
    [width] equal to that count, [height] equal to 1, [is_dense] copied from
    the source, and point [i] equal to the source point at [indices[i]];
    duplicates and reordering are permitted. *)
Theorem C7_subset_copy pc indices :
  Forall (fun i => - two31 <= i < two31) indices ->
  Forall (fun i => 0 <= i < length_of pc) indices ->
  Z.of_nat (length indices) <= length_of pc ->
  Z.of_nat (length indices) < two32 ->
  exists c,
    PointCloud_subset PointT_default pc indices = Returned c [] tt
    /\ sov.mode (points c) = sov.Owning
    /\ length_of c = Z.of_nat (length indices)
    /\ width c = Z.of_nat (length indices)
    /\ height c = 1
    /\ is_dense c = is_dense pc
    /\ forall i idx, nth_error indices i = Some idx ->
         nth_error (contents c) i = nth_error (contents pc) (Z.to_nat idx).
Proof.
  intros Hty Hin Hle Hlt.
  assert (Hty' : Forall (fun i => 0 <= i < two64) indices).
  { rewrite Forall_forall in *. intros i Hi.
    specialize (Hty i Hi). specialize (Hin i Hi). int_lia. }
  unfold PointCloud_subset.
  set (this := {| header := header pc;
                  points := sov.own (Z.of_nat (length indices)) PointT_default;
                  width := to_uint32 (Z.of_nat (length indices)); height := 1;
                  is_dense := is_dense pc;
                  sensor_origin_ := sensor_origin_ pc;
                  sensor_orientation_ := sensor_orientation_ pc |}).
  destruct (copy_indexed_run pc indices Hty' Hin []
              (repeat PointT_default (length indices)) this)
    as (filled & Hrun & Hfl & Hnth).
  { unfold contents, this, sov.own. cbn. now rewrite Nat2Z.id. }
  { apply repeat_length. }
  cbn [length Z.of_nat app] in Hrun.
  destruct (Z.leb_spec (Z.of_nat (length indices)) (length_of pc)); [|lia].
  unfold bind, ret. rewrite Hrun. cbn.
  eexists. split; [reflexivity|]. cbn.
  unfold length_of, sov.size, contents. cbn.
  rewrite Hfl, to_uint32_small by lia. auto 10.
Qed.

(** The zero-copy constructor borrows its storage; the allocating one and
    the copy own theirs. *)
Lemma constructor_modes (data : nat -> PointT) (w h : Z) (value : PointT) g :
  sov.mode (points (PointCloud_span Vector4f_Zero Quaternionf_Identity
                      data w h : Cloud)) = sov.Borrowing
  /\ sov.mode (points (PointCloud_alloc Vector4f_Zero Quaternionf_Identity
                         w h value : Cloud)) = sov.Owning
  /\ sov.mode (points (PointCloud_copy g)) = sov.Owning.
Proof. repeat split. Qed.

(** C10.  For a width and a height whose product is at least 2^32, the
    buffer length chosen by the zero-copy constructor and by the
    two-dimension [resize] is the product reduced modulo 2^32, not the
    product; [width] and [height] are stored as given. *)
Theorem C10_length_wraps (width_ height_ : Z) :
  0 <= width_ < two32 -> 0 <= height_ < two32 ->
  two32 <= width_ * height_ ->
  (forall data,
     length_of (PointCloud_span Vector4f_Zero Quaternionf_Identity
                  data width_ height_ : Cloud)
     = (width_ * height_) mod two32
     /\ length_of (PointCloud_span Vector4f_Zero Quaternionf_Identity
                     data width_ height_ : Cloud)
        <> width_ * height_
     /\ width (PointCloud_span Vector4f_Zero Quaternionf_Identity
                 data width_ height_ : Cloud) = width_
     /\ height (PointCloud_span Vector4f_Zero Quaternionf_Identity
                  data width_ height_ : Cloud) = height_)
  /\ (forall g,
        (sov.mode (points g) = sov.Owning ->
         raised (resize_wh PointT_default width_ height_ g) = None)
        /\ (raised (resize_wh PointT_default width_ height_ g) = None ->
            length_of (final (resize_wh PointT_default width_ height_ g))
            = (width_ * height_) mod two32
            /\ length_of (final (resize_wh PointT_default width_ height_ g))
               <> width_ * height_
            /\ width (final (resize_wh PointT_default width_ height_ g)) = width_
            /\ height (final (resize_wh PointT_default width_ height_ g)) = height_)).
Proof.
  intros Hw Hh Hbig.
  pose proof (Z.mod_pos_bound (width_ * height_) two32 eq_refl) as Hmod.
  assert (Ew : to_uint32 width_ = width_) by (now apply to_uint32_small).
  assert (Eh : to_uint32 height_ = height_) by (now apply to_uint32_small).
  split.
  - intros data. unfold PointCloud_span, length_of, sov.size, sov.borrow. cbn.
    rewrite Ew, Eh, length_map, length_seq, Z2Nat.id by nonneg.
    rewrite to_size_t_small by (unfold mul32, to_uint32; int_lia).
    unfold mul32, to_uint32. repeat split. lia.
  - intros g. split.
    + intros Hown. unfold resize_wh, bind, on_points, sov.resize.
      rewrite (commit_owning _ _ Hown). reflexivity.
    + unfold resize_wh. repeat (unfold_monad; cbn).
      case_scrutinee; [discriminate|]. intros _. buffer_sizes.
      unfold length_of. cbn. rewrite Hsize, Ew, Eh.
      unfold mul32, to_uint32. repeat split. lia.
Qed.

End Construction.

(** ** Instances on concrete clouds *)

Import Examples.

Lemma flat_length n : 0 <= n -> length_of (flat n) = n.
Proof.
  intros H. unfold flat, length_of, sov.size, sov.own. cbn.
  rewrite repeat_length. apply Z2Nat.id, H.
Qed.

(** What the one-argument [resize] leaves in an owning cloud. *)
Lemma resize_owning_run {PointT Vector4f Quaternionf : Type}
    (d : PointT) (g : PointCloud PointT Vector4f Quaternionf) (count : Z) :
  sov.mode (points g) = sov.Owning ->
  exists c,
    resize d count g = Returned c [] tt
    /\ length_of c = to_size_t count
    /\ (mul32 (width g) (height g) <> to_size_t count ->
        width c = to_uint32 (to_size_t count) /\ height c = 1)
    /\ (mul32 (width g) (height g) = to_size_t count ->
        width c = width g /\ height c = height g).
Proof.
  intros Hown.
  assert (Hlen : forall t, sov.resize (to_size_t count) d (points g) = inr t ->
                           sov.size t = to_size_t count)
    by (intros t; apply resize_size; nonneg).
  unfold resize, bind, on_points, get.
  unfold sov.resize in *. rewrite (commit_owning _ _ Hown) in *.
  specialize (Hlen _ eq_refl). cbn.
  destruct (Z.eqb_spec (mul32 (width g) (height g)) (to_size_t count)) as [E|E];
    cbn; eexists; (split; [reflexivity|]); unfold length_of; cbn;
    (split; [exact Hlen|]); split; intros H; try contradiction; auto.
Qed.

(** The numbered clouds: shape, length and contents. *)
Lemma numbered_width w h n : width (numbered w h n) = w.
Proof. reflexivity. Qed.

Lemma numbered_height w h n : height (numbered w h n) = h.
Proof. reflexivity. Qed.

Lemma numbered_length w h n : 0 <= n -> length_of (numbered w h n) = n.
Proof.
  intros H. unfold numbered, length_of, sov.size, sov.own_range. cbn.
  rewrite length_map, length_seq. apply Z2Nat.id, H.
Qed.

Lemma numbered_nth w h n i :
  0 <= i < n -> nth_error (contents (numbered w h n)) (Z.to_nat i) = Some i.
Proof.
  intros H. unfold numbered, contents, sov.own_range. cbn.
  rewrite nth_error_map, nth_error_seq.
  destruct (Nat.ltb_spec (Z.to_nat i) (Z.to_nat n)) as [_|Hge]; [|lia].
  cbn. unfold storage. f_equal. lia.
Qed.

Lemma numbered_at w h n column row off :
  1 < h -> (row * w + column) mod two32 = off -> 0 <= off < n ->
  at_colrow column row (numbered w h n) = Returned (numbered w h n) [] off.
Proof.
  intros Hh Hoff Hlt.
  destruct (access_offsets (numbered w h n) column row) as [Hat _].
  rewrite numbered_width, Hoff in Hat.
  unfold at_colrow, bind, get, read_points.
  rewrite numbered_height. destruct (Z.ltb_spec 1 h); [|lia].
  rewrite Hat. unfold sov.at_.
  fold (length_of (numbered w h n)). rewrite numbered_length by lia.
  destruct (Z.ltb_spec off n); [|lia].
  fold (contents (numbered w h n)). rewrite numbered_nth by lia. reflexivity.
Qed.

Lemma numbered_call w h n column row off :
  (row * w + column) mod two64 = off -> 0 <= off < n ->
  call_colrow column row (numbered w h n) = Returned (numbered w h n) [] off.
Proof.
  intros Hoff Hlt.
  destruct (access_offsets (numbered w h n) column row) as [_ Hcall].
  rewrite numbered_width, Hoff in Hcall.
  unfold call_colrow, bind, get, read_points, sov.subscript.
  rewrite Hcall.
  fold (contents (numbered w h n)). rewrite numbered_nth by lia. reflexivity.
Qed.

(** C1, an instance: resizing the 3 x 2 grid to four points. *)
Lemma C1_witness :
  raised (run_plain 0 (call_resize 4) grid_3x2) = None
  /\ length_of (final (run_plain 0 (call_resize 4) grid_3x2)) < two32
  /\ mul32 (width (final (run_plain 0 (call_resize 4) grid_3x2)))
           (height (final (run_plain 0 (call_resize 4) grid_3x2)))
     = length_of (final (run_plain 0 (call_resize 4) grid_3x2)).
Proof.
  split; [reflexivity|]. split; [reflexivity|].
  apply (proj2 (C1_invariant_after_plain_calls 0 grid_3x2) (call_resize 4));
    reflexivity.
Defined.

(** C1 as stated fails: resizing the empty cloud to [2^32 + 1] points
    returns normally with [width = 1] and [height = 1], so neither the
    32-bit nor the exact product [width * height] is the buffer length. *)
Lemma C1_counterexample :
  exists c,
    run_plain 0 (call_resize (two32 + 1)) empty_cloud = Returned c [] tt
    /\ length_of c = two32 + 1
    /\ mul32 (width c) (height c) <> length_of c
    /\ width c * height c <> length_of c.
Proof.
  destruct (resize_owning_run 0 empty_cloud (two32 + 1) eq_refl)
    as (c & Hrun & Hlen & Hcollapse & _).
  destruct Hcollapse as [Hw Hh]; [vm_compute; discriminate|].
  exists c. split; [exact Hrun|]. rewrite Hlen, Hw, Hh.
  repeat split; vm_compute; discriminate.
Qed.

(** The exact product need not be the length even for short buffers: the
    two-dimension [resize] to 65536 x 65536 leaves an empty buffer. *)
Remark resize_wh_exact_product :
  raised (resize_wh 0 65536 65536 empty_cloud) = None
  /\ length_of (final (resize_wh 0 65536 65536 empty_cloud)) = 0
  /\ mul32 (width (final (resize_wh 0 65536 65536 empty_cloud)))
           (height (final (resize_wh 0 65536 65536 empty_cloud))) = 0
  /\ width (final (resize_wh 0 65536 65536 empty_cloud))
     * height (final (resize_wh 0 65536 65536 empty_cloud)) = two32.
Proof. vm_compute. repeat split. Qed.

(** C2, an instance: [push_back] on the 3 x 1 view of external storage. *)
Lemma C2_witness :
  raised (run_plain 0 (call_push_back 9) view_3x1) = Some capacity_violation
  /\ contents (final (run_plain 0 (call_push_back 9) view_3x1)) = [0; 1; 2]
  /\ length_of (final (run_plain 0 (call_push_back 9) view_3x1)) = 3.
Proof.
  destruct (C2_borrowing_rejects_growth 0 view_3x1 (call_push_back 9)
              eq_refl eq_refl) as (Hr & Hc & Hl & _).
  split; [exact Hr|]. split; [exact Hc | exact Hl].
Defined.

(** C3, an instance: resizing the 3 x 2 grid to six points keeps 3 x 2. *)
Lemma C3_witness :
  width (final (run_plain 0 (call_resize 6) grid_3x2)) = 3
  /\ height (final (run_plain 0 (call_resize 6) grid_3x2)) = 2.
Proof.
  exact (C3_single_dimension_shape 0 grid_3x2 (call_resize 6)
           eq_refl eq_refl eq_refl).
Defined.

(** C3 as stated fails: assigning six points to the 3 x 2 grid gives a
    new length equal to the old [width * height], yet the grid collapses to
    6 x 1. *)
Lemma C3_counterexample :
  single_dimension (call_assign 6 0 : plain_call Z unit unit) = true
  /\ raised (run_plain 0 (call_assign 6 0) grid_3x2) = None
  /\ length_of (final (run_plain 0 (call_assign 6 0) grid_3x2))
     = width grid_3x2 * height grid_3x2
  /\ ~ (width (final (run_plain 0 (call_assign 6 0) grid_3x2)) = width grid_3x2
        /\ height (final (run_plain 0 (call_assign 6 0) grid_3x2))
           = height grid_3x2).
Proof.
  repeat split; try reflexivity.
  intros [Hw _]. vm_compute in Hw. discriminate.
Qed.

(** C4, an instance: the 3 x 2 grid followed by two more points. *)
Lemma C4_witness :
  (exists c, concatenate_out (other grid_3x2) (other (flat 2)) empty_cloud
             = Returned c [] true
             /\ concatenation_of grid_3x2 (flat 2) c)
  /\ (exists c, concatenate (flat 2) grid_3x2 = Returned c [] true
                /\ concatenation_of grid_3x2 (flat 2) c)
  /\ (exists c, concatenate_out this_cloud (other (flat 2)) grid_3x2
                = Returned c [] true
                /\ concatenation_of grid_3x2 (flat 2) c).
Proof.
  destruct (C4_concatenate grid_3x2 (flat 2) eq_refl) as [Hout Hin].
  split; [apply Hout; reflexivity | apply Hin; reflexivity].
Defined.

(** C4 as stated fails: two owning clouds of [2^31] points concatenate, in
    place, into [2^32] points with [width = 0]. *)
Lemma C4_counterexample :
  exists c,
    concatenate (flat two31) (flat two31) = Returned c [] true
    /\ length_of (flat two31) + length_of (flat two31) = two32
    /\ width c = 0
    /\ width c <> length_of (flat two31) + length_of (flat two31).
Proof.
  destruct (concatenate_run (flat two31) (flat two31) eq_refl)
    as (c & Hrun & _ & Hw & _).
  exists c. split; [exact Hrun|].
  rewrite Hw, !flat_length by discriminate.
  repeat split; vm_compute; discriminate.
Qed.

(** The three-argument form with its second input as the output: the two
    points of the second input are lost, and the grid is there twice under
    its own stamp. *)
Remark concatenate_out_onto_second_input :
  exists c,
    concatenate_out (other grid_3x2) this_cloud (flat 2) = Returned c [] true
    /\ contents c = contents grid_3x2 ++ contents grid_3x2
    /\ contents c <> contents grid_3x2 ++ contents (flat 2)
    /\ stamp (header c) = stamp (header grid_3x2).
Proof.
  eexists. split; [reflexivity|]. repeat split. discriminate.
Qed.

(** C5, instances: the checked access on the unorganized view, inside and
    outside the 3 x 2 grid, and the two offsets at (1, 1). *)
Lemma C5_witness :
  at_colrow 1 0 view_3x1 = Thrown view_3x1 [] UnorganizedPointCloudException
  /\ (exists p, nth_error (contents grid_3x2) (Z.to_nat (at_offset grid_3x2 1 1))
                = Some p
                /\ at_colrow 1 1 grid_3x2 = Returned grid_3x2 [] p)
  /\ at_colrow 0 2 grid_3x2 = Thrown grid_3x2 [] out_of_range
  /\ (at_offset grid_3x2 1 1 = 1 * width grid_3x2 + 1
      /\ call_offset grid_3x2 1 1 = 1 * width grid_3x2 + 1).
Proof.
  split; [|split; [|split]].
  - apply (proj1 (C5_access_2d view_3x1 1 0)). discriminate.
  - apply (proj1 (proj2 (C5_access_2d grid_3x2 1 1))); reflexivity.
  - apply (proj1 (proj2 (proj2 (C5_access_2d grid_3x2 0 2))));
      [reflexivity | discriminate].
  - apply (proj2 (proj2 (proj2 (proj2 (proj2 (proj2
             (C5_access_2d grid_3x2 1 1))))))).
    split; [discriminate | reflexivity].
Defined.

(** C5 as stated fails: in the organized grid of two rows and [2^31 + 1]
    columns, whose [width * height] is exactly its length, the coordinates
    (column [2^31 - 1], row 1) lie inside the grid; the checked access
    computes offset 0 and returns the first point, the unchecked one
    computes offset [2^32] and returns the point stored there. *)
Lemma C5_counterexample :
  width wide_two_rows * height wide_two_rows = length_of wide_two_rows
  /\ 0 <= two31 - 1 < width wide_two_rows
  /\ 0 <= 1 < height wide_two_rows
  /\ at_colrow (two31 - 1) 1 wide_two_rows = Returned wide_two_rows [] 0
  /\ call_colrow (two31 - 1) 1 wide_two_rows = Returned wide_two_rows [] two32.
Proof.
  unfold wide_two_rows.
  rewrite numbered_length by discriminate.
  rewrite numbered_width, numbered_height.
  split; [reflexivity|]. split; [split; [discriminate|reflexivity]|].
  split; [split; [discriminate|reflexivity]|]. split.
  - apply numbered_at; [reflexivity | reflexivity | split; [discriminate|reflexivity]].
  - apply numbered_call; [reflexivity | split; [discriminate|reflexivity]].
Qed.

(** C6, instances: six points with width 3 (organized), width 4 (fallback)
    and width 0 (fallback). *)
Lemma C6_witness :
  (width (final (assign_range_width [1; 2; 3; 4; 5; 6] 3 empty_cloud)) = 3
   /\ height (final (assign_range_width [1; 2; 3; 4; 5; 6] 3 empty_cloud)) = 2
   /\ emitted (assign_range_width [1; 2; 3; 4; 5; 6] 3 empty_cloud) = [])
  /\ (width (final (assign_range_width [1; 2; 3; 4; 5; 6] 4 empty_cloud)) = 6
      /\ height (final (assign_range_width [1; 2; 3; 4; 5; 6] 4 empty_cloud)) = 1
      /\ emitted (assign_range_width [1; 2; 3; 4; 5; 6] 4 empty_cloud)
         = [warn_mismatch 4 6])
  /\ (width (final (assign_range_width [1; 2; 3; 4; 5; 6] 0 empty_cloud)) = 6
      /\ height (final (assign_range_width [1; 2; 3; 4; 5; 6] 0 empty_cloud)) = 1
      /\ emitted (assign_range_width [1; 2; 3; 4; 5; 6] 0 empty_cloud)
         = [warn_zero_width]).
Proof.
  assert (Hn : Z.of_nat (length [1; 2; 3; 4; 5; 6]) < two32) by reflexivity.
  assert (W3 : 0 <= 3 < two31) by (split; [discriminate | reflexivity]).
  assert (W4 : 0 <= 4 < two31) by (split; [discriminate | reflexivity]).
  assert (W0 : 0 <= 0 < two31) by (split; [discriminate | reflexivity]).
  pose proof (C6_assign_with_width empty_cloud [1; 2; 3; 4; 5; 6] 3 Hn W3)
    as (_ & _ & _ & H3).
  pose proof (C6_assign_with_width empty_cloud [1; 2; 3; 4; 5; 6] 4 Hn W4)
    as (_ & _ & _ & H4).
  pose proof (C6_assign_with_width empty_cloud [1; 2; 3; 4; 5; 6] 0 Hn W0)
    as (_ & _ & _ & H0).
  assert (R3 : raised (assign_range_width [1; 2; 3; 4; 5; 6] 3 empty_cloud) = None)
    by (vm_compute; reflexivity).
  assert (R4 : raised (assign_range_width [1; 2; 3; 4; 5; 6] 4 empty_cloud) = None)
    by (vm_compute; reflexivity).
  assert (R0 : raised (assign_range_width [1; 2; 3; 4; 5; 6] 0 empty_cloud) = None)
    by (vm_compute; reflexivity).
  destruct (H3 R3) as [_ S3]. destruct (H4 R4) as [_ S4].
  destruct (H0 R0) as [_ S0].
  vm_compute in S3, S4, S0 |- *.
  split; [exact S3|]. split; [exact S4 | exact S0].
Defined.

(** A negative [new_width] is read as a large unsigned width: -2 does not
    organize six points into rows. *)
Remark assign_negative_width :
  width (final (assign_range_width [1; 2; 3; 4; 5; 6] (-2) empty_cloud)) = 6
  /\ height (final (assign_range_width [1; 2; 3; 4; 5; 6] (-2) empty_cloud)) = 1
  /\ emitted (assign_range_width [1; 2; 3; 4; 5; 6] (-2) empty_cloud)
     = [warn_mismatch 4294967294 6].
Proof. vm_compute. repeat split. Qed.

(** C6 as stated fails: the width 1 divides every size, but assigning
    [2^32] points with [new_width = 1] falls back to [width = 0],
    [height = 1] and emits the mismatch diagnostic. *)
Lemma C6_counterexample :
  Z.of_nat (length (repeat 0 (Z.to_nat two32))) mod 1 = 0
  /\ raised (assign_range_width (repeat 0 (Z.to_nat two32)) 1 empty_cloud) = None
  /\ width (final (assign_range_width (repeat 0 (Z.to_nat two32)) 1 empty_cloud))
     <> 1
  /\ emitted (assign_range_width (repeat 0 (Z.to_nat two32)) 1 empty_cloud)
     = [warn_mismatch 1 two32].
Proof.
  assert (Hn : Z.of_nat (length (repeat 0 (Z.to_nat two32))) = two32)
    by (rewrite repeat_length; apply Z2Nat.id; discriminate).
  assert (Ht : sov.assign_range (repeat 0 (Z.to_nat two32)) (points empty_cloud)
               = inr (sov.mk sov.Owning (repeat 0 (Z.to_nat two32))))
    by (apply commit_owning; reflexivity).
  rewrite (assign_range_width_fallback empty_cloud _ 1 _ two32
             ltac:(discriminate) Ht Hn ltac:(vm_compute; discriminate)).
  rewrite Hn. repeat split.
  change (to_uint32 two32 <> 1). vm_compute. discriminate.
Qed.

(** C7, an instance: the indices [2, 0, 2] into the six-point grid. *)
Lemma C7_witness :
  exists c,
    PointCloud_subset 0 grid_3x2 [2; 0; 2] = Returned c [] tt
    /\ sov.mode (points c) = sov.Owning
    /\ length_of c = 3
    /\ width c = 3
    /\ height c = 1
    /\ is_dense c = is_dense grid_3x2
    /\ forall i idx, nth_error [2; 0; 2] i = Some idx ->
         nth_error (contents c) i = nth_error (contents grid_3x2) (Z.to_nat idx).
Proof.
  apply (C7_subset_copy 0 grid_3x2 [2; 0; 2]).
  - repeat constructor; discriminate.
  - repeat constructor; discriminate.
  - discriminate.
  - reflexivity.
Defined.

(** C7 as stated fails: two indices into a one-point source are each
    smaller than the source length, yet the constructor's assertion
    [indices.size() <= pc.size()] fails. *)
Lemma C7_counterexample :
  Forall (fun i => 0 <= i < length_of (flat 1)) [0; 0]
  /\ raised (PointCloud_subset 0 (flat 1) [0; 0]) = Some assertion_failed.
Proof.
  split; [|reflexivity]. repeat constructor; discriminate.
Qed.

(** C10, an instance: 65536 x 65536 gives an empty buffer. *)
Lemma C10_witness :
  length_of (PointCloud_span tt tt storage 65536 65536) = 0
  /\ width (PointCloud_span tt tt storage 65536 65536) = 65536
  /\ height (PointCloud_span tt tt storage 65536 65536) = 65536
  /\ raised (resize_wh 0 65536 65536 grid_3x2) = None
  /\ length_of (final (resize_wh 0 65536 65536 grid_3x2)) = 0.
Proof.
  assert (H1 : 0 <= 65536 < two32) by (split; [discriminate | reflexivity]).
  assert (H3 : two32 <= 65536 * 65536) by (vm_compute; discriminate).
  destruct (C10_length_wraps 0 tt tt 65536 65536 H1 H1 H3) as [Hspan Hresize].
  destruct (Hspan storage) as (Hl & _ & Hw & Hh).
  destruct (Hresize grid_3x2) as [Hret Hshape].
  specialize (Hret eq_refl).
  destruct (Hshape Hret) as (Hl' & _).
  vm_compute in Hl, Hw, Hh, Hl' |- *.
  repeat split; assumption.
Defined.

(** * Further properties of the members *)

Section Composition.
Context {PointT Vector4f Quaternionf : Type}.
Variable PointT_default : PointT.
Abbreviation Cloud := (PointCloud PointT Vector4f Quaternionf).
Abbreviation Call := (plain_call PointT Vector4f Quaternionf).
Implicit Types (g : Cloud).

(** Resizing a list to its own length changes nothing. *)
Lemma resized_same (l : list PointT) (v : PointT) :
  firstn (length l) l ++ repeat v (length l - length l) = l.
Proof. now rewrite firstn_all, Nat.sub_diag, app_nil_r. Qed.

Lemma commit_same (b : sov.t PointT) :
  sov.commit b (sov.elems b) = inr b.
Proof.
  unfold sov.commit. destruct b as [[|] l]; cbn; [reflexivity|].
  now rewrite Nat.eqb_refl.
Qed.

(** A buffer resized to [n] is left as it is by a second resize to [n]. *)
Lemma resize_again (n : Z) (v : PointT) (b t : sov.t PointT) :
  sov.resize n v b = inr t -> sov.resize n v t = inr t.
Proof.
  unfold sov.resize. intros H.
  assert (Hl : length (sov.elems t) = Z.to_nat n)
    by (apply commit_inr in H as [-> _]; apply resized_length).
  rewrite <- Hl, resized_same. apply commit_same.
Qed.

(** X1.  [resize(count)] is idempotent: a second call with the same count
    leaves the cloud as the first one did and raises exactly when the first
    one does, whatever the count and the ownership of the buffer. *)
Theorem X1_resize_idempotent g (count : Z) :
  final ((resize PointT_default count ;; resize PointT_default count) g)
  = final (resize PointT_default count g)
  /\ raised ((resize PointT_default count ;; resize PointT_default count) g)
     = raised (resize PointT_default count g).
Proof.
  unfold resize, bind, on_points, get, ret, set_width, set_height.
  destruct (sov.resize (to_size_t count) PointT_default (points g))
    as [e|t] eqn:Ht; cbn.
  - auto.
  - destruct (negb (mul32 (width g) (height g) =? to_size_t count)) eqn:Hc; cbn.
    + rewrite (resize_again _ _ _ _ Ht). cbn.
      destruct (negb (mul32 (to_uint32 (to_size_t count)) 1 =? to_size_t count));
        cbn; auto.
    + rewrite (resize_again _ _ _ _ Ht). cbn. rewrite Hc. cbn. auto.
Qed.

(** X2.  [resize(size())] repairs the shape: on a cloud of fewer than 2^32
    points, of either ownership, it returns normally, leaves the buffer as
    it is, and makes the 32-bit [width * height] equal to the length; a
    cloud whose shape already matched is not changed at all. *)
Theorem X2_resize_to_size_repairs g :
  length_of g < two32 ->
  raised (resize PointT_default (length_of g) g) = None
  /\ points (final (resize PointT_default (length_of g) g)) = points g
  /\ mul32 (width (final (resize PointT_default (length_of g) g)))
           (height (final (resize PointT_default (length_of g) g)))
     = length_of g
  /\ (mul32 (width g) (height g) = length_of g ->
      final (resize PointT_default (length_of g) g) = g).
Proof.
  intros Hlt.
  assert (Hn : to_size_t (length_of g) = length_of g).
  { apply to_size_t_small. unfold length_of in *.
    pose proof (size_nonneg (points g)). int_lia. }
  assert (Hr : sov.resize (length_of g) PointT_default (points g) = inr (points g)).
  { unfold sov.resize, length_of, sov.size. rewrite Nat2Z.id, resized_same.
    apply commit_same. }
  unfold resize, bind, on_points, get, ret, set_width, set_height.
  rewrite Hn, Hr. cbn.
  assert (Hg : with_points (points g) g = g) by (destruct g; reflexivity).
  destruct (Z.eqb_spec (mul32 (width g) (height g)) (length_of g)) as [E|E]; cbn.
  - rewrite Hg. auto.
  - repeat split; try contradiction.
    apply mul32_one. unfold length_of in *.
    pose proof (size_nonneg (points g)). lia.
Qed.

(** X3.  Every plain call whose body ends in [width = size(); height = 1;]
    (assign of a count, a range or a list, push_back, emplace_back, insert,
    emplace, erase, concatenate) leaves, when it returns, an unorganized
    cloud: [height] is 1, [isOrganized()] is false, and [width] is the
    length converted to 32 bits. *)
Theorem X3_collapsing_calls_unorganize g (m : Call) :
  collapsing m = true ->
  raised (run_plain PointT_default m g) = None ->
  height (final (run_plain PointT_default m g)) = 1
  /\ isOrganized (final (run_plain PointT_default m g)) = false
  /\ width (final (run_plain PointT_default m g))
     = to_uint32 (length_of (final (run_plain PointT_default m g))).
Proof.
  intros Hc.
  destruct m; try discriminate Hc; clear Hc.
  all: run_members; try discriminate; intros _; unfold length_of; cbn; auto.
Qed.

(** X4.  An insertion of nothing and an erasure of nothing still collapse
    the grid: [insert(position, 0, pt)], [insert(position, first, first)] and
    [erase(first, first)] at a position inside the buffer return normally on
    a cloud of either ownership, leave the points as they are, and set
    [height] to 1 and [width] to the length. *)
Theorem X4_empty_edits_collapse g (position : nat) (pt : PointT) :
  (position <= length (contents g))%nat ->
  forall m : Call,
    m = call_insert_n position 0 pt \/ m = call_insert_range position []
    \/ m = call_erase_range position position ->
    raised (run_plain PointT_default m g) = None
    /\ points (final (run_plain PointT_default m g)) = points g
    /\ height (final (run_plain PointT_default m g)) = 1
    /\ width (final (run_plain PointT_default m g)) = to_uint32 (length_of g).
Proof.
  intros Hpos m Hm. apply Nat.leb_le in Hpos. unfold contents in Hpos.
  assert (Hsame : firstn position (sov.elems (points g))
                  ++ skipn position (sov.elems (points g))
                  = sov.elems (points g)) by apply firstn_skipn.
  assert (Hg : with_points (points g) g = g) by (destruct g; reflexivity).
  destruct Hm as [-> | [-> | ->]];
    repeat (unfold_members; unfold_monad; cbn);
    unfold sov.insert, sov.erase_range;
    rewrite ?Hpos, ?Nat.leb_refl; cbn;
    rewrite Hsame, commit_same; cbn; auto.
Qed.

End Composition.

Section Sequence.
Context {PointT Vector4f Quaternionf : Type}.
Abbreviation Cloud := (PointCloud PointT Vector4f Quaternionf).
Implicit Types (g : Cloud) (pt : PointT).

(** X5.  [emplace_back] and [transient_emplace_back] raise exactly when
    [push_back] does, and when they return, the value is the emplaced point
    and the points are the old ones followed by it. *)
Theorem X5_emplace_back_returns_point g pt :
  raised (emplace_back pt g) = raised (push_back pt g)
  /\ raised (transient_emplace_back pt g) = raised (push_back pt g)
  /\ (forall g' w v,
        emplace_back pt g = Returned g' w v
        \/ transient_emplace_back pt g = Returned g' w v ->
        v = pt /\ contents g' = contents g ++ [pt]).
Proof.
  repeat (unfold_members; unfold_monad; cbn). unfold sov.push_back, length_of.
  destruct (sov.commit (points g) (sov.elems (points g) ++ [pt]))
    as [e|t] eqn:Ht; cbn.
  - split; [reflexivity|]. split; [reflexivity|].
    intros g' w v [H|H]; discriminate.
  - pose proof (back_after_push_back _ _ _ Ht) as Hback.
    apply commit_inr in Ht as [He _].
    rewrite Hback. cbn. split; [reflexivity|]. split; [reflexivity|].
    intros g' w v [H|H]; inversion H; subst; unfold contents; cbn; auto.
Qed.

Lemma insert_erase_same (pos : nat) (l : list PointT) pt :
  (pos <= length l)%nat ->
  firstn pos (firstn pos l ++ [pt] ++ skipn pos l)
  ++ skipn (S pos) (firstn pos l ++ [pt] ++ skipn pos l) = l.
Proof.
  intros H.
  assert (Hl : length (firstn pos l) = pos) by (rewrite length_firstn; lia).
  rewrite firstn_app, Hl, Nat.sub_diag, firstn_firstn, Nat.min_id.
  cbn [firstn]. rewrite app_nil_r.
  rewrite skipn_app, Hl.
  rewrite (skipn_all2 (n := S pos) (firstn pos l)) by (rewrite Hl; lia).
  replace (S pos - pos)%nat with 1%nat by lia. cbn. apply firstn_skipn.
Qed.

(** The two single-point members in closed form. *)
Lemma insert_run g (position : nat) pt (b : sov.t PointT) :
  sov.insert position [pt] (points g) = inr b ->
  insert position pt g
  = Returned (with_height 1 (with_width (to_uint32 (sov.size b)) (with_points b g)))
      [] position.
Proof.
  intros H. unfold insert, bind, on_points, size, get, ret, set_width, set_height.
  rewrite H. reflexivity.
Qed.

Lemma erase_run g (position : nat) (b : sov.t PointT) :
  sov.erase position (points g) = inr b ->
  erase position g
  = Returned (with_height 1 (with_width (to_uint32 (sov.size b)) (with_points b g)))
      [] position.
Proof.
  intros H. unfold erase, bind, on_points, size, get, ret, set_width, set_height.
  rewrite H. reflexivity.
Qed.

(** X6.  Inserting a point and erasing at the returned position is a round
    trip on the points: on an owning cloud with the position inside the
    buffer the two calls return, the points are the original ones and the
    iterator is the position; the shape is not restored but collapsed to
    [width = size], [height = 1]. *)
Theorem X6_insert_erase_round_trip g (position : nat) pt :
  sov.mode (points g) = sov.Owning ->
  (position <= length (contents g))%nat ->
  exists g',
    (it <- insert position pt ;; erase it) g = Returned g' [] position
    /\ contents g' = contents g
    /\ height g' = 1
    /\ width g' = to_uint32 (length_of g).
Proof.
  intros Hown Hpos. unfold contents in *.
  set (l := sov.elems (points g)) in *.
  set (b := sov.mk sov.Owning (firstn position l ++ [pt] ++ skipn position l)).
  assert (Hins : sov.insert position [pt] (points g) = inr b).
  { unfold sov.insert. fold l. apply Nat.leb_le in Hpos. rewrite Hpos.
    apply commit_owning, Hown. }
  assert (Hers : sov.erase position b = inr (sov.mk sov.Owning l)).
  { unfold sov.erase, b. cbn [sov.elems].
    assert (Hlt : Nat.ltb position
                    (length (firstn position l ++ [pt] ++ skipn position l)) = true).
    { apply Nat.ltb_lt. rewrite !length_app, length_firstn. cbn. lia. }
    rewrite Hlt, insert_erase_same by exact Hpos. reflexivity. }
  unfold bind. rewrite (insert_run g position pt b Hins).
  rewrite (erase_run _ position (sov.mk sov.Owning l)) by exact Hers.
  eexists. split; [reflexivity|]. unfold length_of, sov.size. cbn. auto.
Qed.

Lemma push_back_owning g pt :
  sov.mode (points g) = sov.Owning ->
  push_back pt g
  = Returned (with_height 1
                (with_width (to_uint32 (Z.of_nat (length (contents g ++ [pt]))))
                   (with_points (sov.mk sov.Owning (contents g ++ [pt])) g)))
      [] tt.
Proof.
  intros Hown.
  unfold push_back, bind, on_points, size, get, ret, set_width, set_height,
    sov.push_back.
  rewrite (commit_owning _ _ Hown). reflexivity.
Qed.

(** Pushing the points of [l] one after the other, on an owning cloud. *)
Lemma fold_push_back_run (l : list PointT) :
  forall g, sov.mode (points g) = sov.Owning ->
    raised (fold_left (fun m pt => m ;; push_back pt) l (ret tt) g) = None
    /\ final (fold_left (fun m pt => m ;; push_back pt) l (ret tt) g)
       = match l with
         | [] => g
         | _ => with_height 1
                  (with_width
                     (to_uint32 (Z.of_nat (length (contents g ++ l))))
                     (with_points (sov.mk sov.Owning (contents g ++ l)) g))
         end.
Proof.
  induction l as [|x l IH] using rev_ind; intros g Hown.
  - cbn. auto.
  - rewrite fold_left_app. cbn [fold_left].
    destruct (IH g Hown) as [Hr Hf].
    change ((fold_left (fun m pt => m ;; push_back pt) l (ret tt)
             ;; push_back x) g)
      with (match fold_left (fun m pt => m ;; push_back pt) l (ret tt) g with
            | Returned s1 w1 _ =>
                match push_back x s1 with
                | Returned s2 w2 b => Returned s2 (w1 ++ w2) b
                | Thrown s2 w2 e => Thrown s2 (w1 ++ w2) e
                end
            | Thrown s1 w1 e => Thrown s1 w1 e
            end).
    destruct (fold_left (fun m pt => m ;; push_back pt) l (ret tt) g)
      as [s w a|s w e]; [|discriminate]. cbn in Hf. subst s.
    destruct l as [|z l0].
    + rewrite (push_back_owning g x Hown). cbn. auto.
    + rewrite push_back_owning by reflexivity. cbn.
      unfold contents. cbn. rewrite <- !app_assoc. cbn. auto.
Qed.

(** X7.  Pushing the points of a non-empty list one after the other onto an
    owning cloud returns normally and leaves exactly the cloud that one
    range [insert] of the list at [end()] leaves. *)
Theorem X7_push_back_all_is_insert_at_end g (l : list PointT) :
  sov.mode (points g) = sov.Owning ->
  l <> [] ->
  raised (fold_left (fun m pt => m ;; push_back pt) l (ret tt) g) = None
  /\ final (fold_left (fun m pt => m ;; push_back pt) l (ret tt) g)
     = final ((e <- end_ ;; insert_range e l) g).
Proof.
  intros Hown Hl.
  destruct (fold_push_back_run l g Hown) as [Hr Hf].
  split; [exact Hr|]. rewrite Hf.
  destruct l as [|x l]; [contradiction|].
  repeat (unfold_members; unfold_monad; cbn).
  unfold sov.insert, contents. rewrite Nat.leb_refl, (commit_owning _ _ Hown).
  cbn. unfold length_of, sov.size. cbn.
  rewrite firstn_all, skipn_all, app_nil_r. reflexivity.
Qed.

End Sequence.

Section Sums.
Context {PointT Vector4f Quaternionf : Type}.
Abbreviation Cloud := (PointCloud PointT Vector4f Quaternionf).

(** [operator+] in closed form: the object of the call is untouched and the
    value is an owning cloud. *)
Lemma add_run (this rhs : Cloud) :
  add rhs this
  = Returned this []
      {| header := with_stamp (Z.max (stamp (header this)) (stamp (header rhs)))
                     (header this);
         points := sov.mk sov.Owning (contents this ++ contents rhs);
         width := to_uint32 (Z.of_nat (length (contents this ++ contents rhs)));
         height := 1;
         is_dense := is_dense this && is_dense rhs;
         sensor_origin_ := sensor_origin_ this;
         sensor_orientation_ := sensor_orientation_ this |}.
Proof.
  unfold add, on_temporary, add_assign.
  repeat (unfold_members; unfold_monad; cbn).
  unfold sov.insert, contents, length_of, sov.size. cbn.
  rewrite Nat.leb_refl, insert_at_end. cbn. reflexivity.
Qed.

(** X8.  [operator+] never raises and never changes the cloud it is called
    on, whatever the ownership of the operands, and it is associative:
    [(a + b) + c] and [a + (b + c)] are the same cloud, field by field. *)
Theorem X8_operator_plus_associative (a b c : Cloud) :
  exists ab bc abc,
    add b a = Returned a [] ab
    /\ add c b = Returned b [] bc
    /\ add c ab = Returned ab [] abc
    /\ add bc a = Returned a [] abc
    /\ contents abc = contents a ++ contents b ++ contents c
    /\ sov.mode (points abc) = sov.Owning.
Proof.
  eexists. eexists. eexists.
  split; [apply add_run|]. split; [apply add_run|].
  split; [apply add_run|]. split.
  - rewrite add_run. unfold contents. cbn.
    rewrite <- !app_assoc, Z.max_assoc, andb_assoc. reflexivity.
  - unfold contents. cbn. rewrite <- app_assoc. auto.
Qed.

(** X9.  [concatenate(cloud1, cloud2)] is not exception-neutral: when the
    insertion raises, the stamp of [cloud1] has already been replaced by the
    newer of the two stamps, while its points, [width], [height] and
    [is_dense] are as before; with the buffer as modelled this happens on
    every borrowing [cloud1] and non-empty [cloud2]. *)
Theorem X9_concatenate_failure_keeps_new_stamp (cloud1 cloud2 : Cloud) :
  (forall e, raised (concatenate cloud2 cloud1) = Some e ->
     stamp (header (final (concatenate cloud2 cloud1)))
     = Z.max (stamp (header cloud1)) (stamp (header cloud2))
     /\ points (final (concatenate cloud2 cloud1)) = points cloud1
     /\ width (final (concatenate cloud2 cloud1)) = width cloud1
     /\ height (final (concatenate cloud2 cloud1)) = height cloud1
     /\ is_dense (final (concatenate cloud2 cloud1)) = is_dense cloud1)
  /\ (sov.mode (points cloud1) = sov.Borrowing -> contents cloud2 <> [] ->
      raised (concatenate cloud2 cloud1) = Some capacity_violation).
Proof.
  split.
  - intros e. run_members; try discriminate; auto.
  - intros Hb Hne.
    repeat (unfold_members; unfold_monad; cbn).
    unfold sov.insert, contents in *. cbn.
    rewrite Nat.leb_refl, insert_at_end, commit_borrowing_changed; auto.
    rewrite length_app. destruct (sov.elems (points cloud2)); [contradiction|].
    cbn. lia.
Qed.

End Sums.

Section Grid.
Context {PointT Vector4f Quaternionf : Type}.
Variable PointT_default : PointT.
Variable Vector4f_Zero : Vector4f.
Variable Quaternionf_Identity : Quaternionf.
Abbreviation Cloud := (PointCloud PointT Vector4f Quaternionf).
Implicit Types (g : Cloud).

(** Coordinates inside a [w] x [h] grid give a row-major offset below
    [w * h]. *)
Lemma offset_in_grid (w h column row : Z) :
  0 <= column < w -> 0 <= row < h -> 0 <= row * w + column < w * h.
Proof. intros Hc Hr. split; nia. Qed.

(** On a cloud with more than one row, both 2D accesses at an offset that
    fits 32 bits and lies below the length return the point stored there. *)
Lemma access_at_offset g column row :
  1 < height g ->
  0 <= row * width g + column < length_of g ->
  length_of g <= two32 ->
  exists p,
    nth_error (contents g) (Z.to_nat (row * width g + column)) = Some p
    /\ at_colrow column row g = Returned g [] p
    /\ call_colrow column row g = Returned g [] p.
Proof.
  intros Hh Hoff Hlen.
  destruct (access_offsets g column row) as [Hat Hcall].
  rewrite Z.mod_small in Hat by lia.
  rewrite Z.mod_small in Hcall by int_lia.
  destruct (at_in_range (points g) (row * width g + column)) as (p & Hp & Hin).
  { exact Hoff. }
  exists p. split; [exact Hp|]. split.
  - unfold at_colrow, bind, get, read_points.
    destruct (Z.ltb_spec 1 (height g)); [|lia].
    rewrite Hat, Hin. reflexivity.
  - unfold call_colrow, bind, get, read_points, sov.subscript.
    rewrite Hcall. unfold contents in Hp. rewrite Hp. reflexivity.
Qed.

(** X10.  On an organized cloud whose [width * height] is exactly its length
    and fits 32 bits, every coordinate pair inside the grid is served alike
    by the checked [at(column, row)] and the unchecked
    [operator()(column, row)]: both return the point at the row-major offset
    [row * width + column]. *)
Theorem X10_in_grid_access_row_major g column row :
  1 < height g ->
  width g * height g = length_of g ->
  length_of g <= two32 ->
  0 <= column < width g -> 0 <= row < height g ->
  exists p,
    nth_error (contents g) (Z.to_nat (row * width g + column)) = Some p
    /\ at_colrow column row g = Returned g [] p
    /\ call_colrow column row g = Returned g [] p.
Proof.
  intros Hh Hinv Hlen Hc Hr.
  apply access_at_offset; auto.
  rewrite <- Hinv. apply offset_in_grid; assumption.
Qed.

(** X11.  The cloud built by [PointCloud(width, height, value)], for a
    product below 2^32, owns [width * height] copies of [value], is dense,
    has the given shape, and every checked access inside the grid returns
    [value]. *)
Theorem X11_fill_constructor_read_back (w h : Z) (value : PointT) :
  0 <= w < two32 -> 0 <= h < two32 -> w * h < two32 ->
  sov.mode (points (PointCloud_alloc Vector4f_Zero Quaternionf_Identity
                      w h value : Cloud)) = sov.Owning
  /\ contents (PointCloud_alloc Vector4f_Zero Quaternionf_Identity
                 w h value : Cloud) = repeat value (Z.to_nat (w * h))
  /\ width (PointCloud_alloc Vector4f_Zero Quaternionf_Identity
              w h value : Cloud) = w
  /\ height (PointCloud_alloc Vector4f_Zero Quaternionf_Identity
               w h value : Cloud) = h
  /\ is_dense (PointCloud_alloc Vector4f_Zero Quaternionf_Identity
                 w h value : Cloud) = true
  /\ (forall column row,
        1 < h -> 0 <= column < w -> 0 <= row < h ->
        at_colrow column row
          (PointCloud_alloc Vector4f_Zero Quaternionf_Identity w h value : Cloud)
        = Returned (PointCloud_alloc Vector4f_Zero Quaternionf_Identity w h value)
            [] value).
Proof.
  intros Hw Hh Hwh.
  assert (Ew : to_uint32 w = w) by (now apply to_uint32_small).
  assert (Eh : to_uint32 h = h) by (now apply to_uint32_small).
  assert (Ep : to_size_t (mul32 w h) = w * h).
  { unfold mul32. rewrite to_uint32_small by nia.
    apply to_size_t_small. int_lia. }
  set (c := PointCloud_alloc Vector4f_Zero Quaternionf_Identity w h value : Cloud).
  assert (Hc : contents c = repeat value (Z.to_nat (w * h))).
  { unfold c, PointCloud_alloc, contents, sov.own. cbn. now rewrite Ew, Eh, Ep. }
  assert (Hwd : width c = w) by (unfold c, PointCloud_alloc; cbn; exact Ew).
  assert (Hht : height c = h) by (unfold c, PointCloud_alloc; cbn; exact Eh).
  repeat (split; [first [reflexivity | assumption]|]).
  intros column row H1 Hcol Hrow.
  assert (Hlen : length_of c = w * h).
  { unfold length_of, sov.size. fold (contents c).
    rewrite Hc, repeat_length. apply Z2Nat.id. nia. }
  destruct (access_at_offset c column row) as (p & Hp & Hat & _).
  { now rewrite Hht. }
  { rewrite Hwd, Hlen. now apply offset_in_grid. }
  { rewrite Hlen. lia. }
  pose proof (offset_in_grid w h column row Hcol Hrow) as Hoff.
  rewrite Hwd, Hc, nth_error_repeat in Hp by lia.
  injection Hp as <-. exact Hat.
Qed.

(** X12.  The zero-copy cloud built by [PointCloud(data, width, height)], for
    a product below 2^32, borrows its storage, and reading back any
    coordinate pair inside the grid, checked or unchecked, gives the external
    element [data[row * width + column]]. *)
Theorem X12_span_constructor_read_back (data : nat -> PointT) (w h : Z)
    (column row : Z) :
  0 <= w < two32 -> 0 <= h < two32 -> w * h < two32 ->
  1 < h -> 0 <= column < w -> 0 <= row < h ->
  sov.mode (points (PointCloud_span Vector4f_Zero Quaternionf_Identity
                      data w h : Cloud)) = sov.Borrowing
  /\ at_colrow column row
       (PointCloud_span Vector4f_Zero Quaternionf_Identity data w h : Cloud)
     = Returned (PointCloud_span Vector4f_Zero Quaternionf_Identity data w h)
         [] (data (Z.to_nat (row * w + column)))
  /\ call_colrow column row
       (PointCloud_span Vector4f_Zero Quaternionf_Identity data w h : Cloud)
     = Returned (PointCloud_span Vector4f_Zero Quaternionf_Identity data w h)
         [] (data (Z.to_nat (row * w + column))).
Proof.
  intros Hw Hh Hwh H1 Hcol Hrow.
  assert (Ew : to_uint32 w = w) by (now apply to_uint32_small).
  assert (Eh : to_uint32 h = h) by (now apply to_uint32_small).
  assert (Ep : to_size_t (mul32 w h) = w * h).
  { unfold mul32. rewrite to_uint32_small by nia.
    apply to_size_t_small. int_lia. }
  set (c := PointCloud_span Vector4f_Zero Quaternionf_Identity data w h : Cloud).
  assert (Hc : contents c = map data (List.seq 0 (Z.to_nat (w * h)))).
  { unfold c, PointCloud_span, contents, sov.borrow. cbn. now rewrite Ew, Eh, Ep. }
  assert (Hwd : width c = w) by (unfold c, PointCloud_span; cbn; exact Ew).
  assert (Hht : height c = h) by (unfold c, PointCloud_span; cbn; exact Eh).
  assert (Hlen : length_of c = w * h).
  { unfold length_of, sov.size. fold (contents c).
    rewrite Hc, length_map, length_seq. apply Z2Nat.id. nia. }
  pose proof (offset_in_grid w h column row Hcol Hrow) as Hoff.
  destruct (access_at_offset c column row) as (p & Hp & Hat & Hcall).
  { now rewrite Hht. }
  { now rewrite Hwd, Hlen. }
  { rewrite Hlen. lia. }
  rewrite Hwd, Hc, nth_error_map, nth_error_seq in Hp.
  destruct (Nat.ltb_spec (Z.to_nat (row * w + column)) (Z.to_nat (w * h)));
    [|lia].
  cbn in Hp. injection Hp as <-. auto.
Qed.

(** X13.  Neither 2D access checks a coordinate against its own dimension:
    moving one row down is the same as adding [width] to the column, for
    [at] and for [operator()] alike, so a column past the end of a row reads
    the next row. *)
Theorem X13_no_per_coordinate_check g column row :
  at_colrow (column + width g) row g = at_colrow column (row + 1) g
  /\ call_colrow (column + width g) row g = call_colrow column (row + 1) g.
Proof.
  destruct (access_offsets g (column + width g) row) as [Ha Hc].
  destruct (access_offsets g column (row + 1)) as [Ha' Hc'].
  assert (E : row * width g + (column + width g)
              = (row + 1) * width g + column) by ring.
  rewrite E in Ha, Hc. rewrite <- Ha' in Ha. rewrite <- Hc' in Hc.
  unfold at_colrow, call_colrow, bind, get. rewrite Ha, Hc. auto.
Qed.

End Grid.

Section Reshape.
Context {PointT Vector4f Quaternionf : Type}.
Variable PointT_default : PointT.
Abbreviation Cloud := (PointCloud PointT Vector4f Quaternionf).
Implicit Types (g : Cloud).

Lemma nth_error_resized (l : list PointT) (v : PointT) (n i : nat) :
  (i < n)%nat ->
  nth_error (firstn n l ++ repeat v (n - length l)) i = Some (nth i l v).
Proof.
  intros Hi. destruct (Nat.lt_ge_cases i (length l)) as [Hl|Hl].
  - rewrite nth_error_app1 by (rewrite length_firstn; lia).
    rewrite nth_error_firstn.
    destruct (Nat.ltb_spec i n); [|lia]. now apply nth_error_nth'.
  - rewrite nth_error_app2 by (rewrite length_firstn; lia).
    rewrite length_firstn, Nat.min_r by lia.
    rewrite nth_error_repeat by lia. now rewrite nth_overflow.
Qed.

(** X14.  The two-dimension [resize] keeps the linear order of the points,
    not their coordinates: on an owning cloud, after [resize(w, h)] with a
    product below 2^32, the point at (column, row) is the old point of linear
    index [row * w + column], or a value-initialised point when the old
    buffer was shorter. *)
Theorem X14_resize_wh_keeps_linear_order g (w h column row : Z) :
  sov.mode (points g) = sov.Owning ->
  0 <= w < two32 -> 0 <= h < two32 -> w * h < two32 ->
  1 < h -> 0 <= column < w -> 0 <= row < h ->
  exists g',
    resize_wh PointT_default w h g = Returned g' [] tt
    /\ width g' = w /\ height g' = h /\ length_of g' = w * h
    /\ at_colrow column row g'
       = Returned g' []
           (nth (Z.to_nat (row * w + column)) (contents g) PointT_default).
Proof.
  intros Hown Hw Hh Hwh H1 Hcol Hrow.
  assert (Ew : to_uint32 w = w) by (now apply to_uint32_small).
  assert (Eh : to_uint32 h = h) by (now apply to_uint32_small).
  assert (Ep : mul32 w h = w * h) by (unfold mul32; apply to_uint32_small; nia).
  pose proof (offset_in_grid w h column row Hcol Hrow) as Hoff.
  set (g' := with_height h
               (with_width w
                  (with_points
                     (sov.mk sov.Owning
                        (firstn (Z.to_nat (w * h)) (contents g)
                         ++ repeat PointT_default
                              (Z.to_nat (w * h) - length (contents g))))
                     g))).
  assert (Hrun : resize_wh PointT_default w h g = Returned g' [] tt).
  { unfold resize_wh, bind, on_points, set_width, set_height, sov.resize.
    rewrite Ew, Eh, Ep, (commit_owning _ _ Hown). reflexivity. }
  assert (Hlen : length_of g' = w * h).
  { unfold g', length_of, sov.size. cbn. rewrite resized_length.
    apply Z2Nat.id. nia. }
  exists g'. split; [exact Hrun|].
  repeat (split; [first [reflexivity | assumption]|]).
  destruct (access_at_offset g' column row) as (p & Hp & Hat & _).
  { exact H1. }
  { rewrite Hlen. exact Hoff. }
  { rewrite Hlen. lia. }
  unfold g' at 1 2 in Hp. unfold contents at 1 in Hp. cbn in Hp.
  rewrite nth_error_resized in Hp by lia. injection Hp as <-. exact Hat.
Qed.

(** X15.  Assigning a range with a width that divides its size lays the
    points out row by row: on an owning cloud, after
    [assign(first, last, new_width)] with more than one resulting row, the
    checked and the unchecked access at (column, row) inside the grid return
    element [row * new_width + column] of the range. *)
Theorem X15_assign_with_width_row_major g (range : list PointT)
    (new_width column row : Z) :
  sov.mode (points g) = sov.Owning ->
  Z.of_nat (length range) < two32 ->
  0 < new_width < two31 ->
  Z.of_nat (length range) mod new_width = 0 ->
  1 < Z.of_nat (length range) / new_width ->
  0 <= column < new_width ->
  0 <= row < Z.of_nat (length range) / new_width ->
  exists g' p,
    assign_range_width range new_width g = Returned g' [] tt
    /\ nth_error range (Z.to_nat (row * new_width + column)) = Some p
    /\ at_colrow column row g' = Returned g' [] p
    /\ call_colrow column row g' = Returned g' [] p.
Proof.
  intros Hown Hn Hw Hdiv Hrows Hcol Hrow.
  set (n := Z.of_nat (length range)) in *.
  assert (Hi : to_int32 new_width = new_width)
    by (apply to_int32_small; int_lia).
  assert (Hu : to_uint32 new_width = new_width)
    by (apply to_uint32_small; int_lia).
  destruct (quotient_product n new_width ltac:(unfold n; lia) ltac:(int_lia))
    as [Hq Hprod].
  assert (Ht : sov.assign_range range (points g) = inr (sov.mk sov.Owning range))
    by (apply commit_owning, Hown).
  assert (Hnw : n = new_width * (n / new_width)).
  { pose proof (Z.div_mod n new_width ltac:(lia)). lia. }
  rewrite (assign_range_width_organized g range new_width _ n
             ltac:(rewrite Hi; lia) Ht eq_refl);
    rewrite ?Hi, ?Hu, ?Hq; [|apply Hprod, Hdiv].
  match goal with |- exists g' p, Returned ?c _ _ = _ /\ _ => set (g' := c) end.
  destruct (access_at_offset g' column row) as (p & Hp & Hat & Hcall).
  { exact Hrows. }
  { unfold g', length_of, sov.size. cbn. fold n.
    pose proof (offset_in_grid new_width (n / new_width) column row Hcol Hrow).
    lia. }
  { unfold g', length_of, sov.size. cbn. fold n. lia. }
  exists g', p. split; [reflexivity|]. split; [exact Hp|]. auto.
Qed.

(** X16.  After [clear()] the cloud is empty and unorganized on every path:
    [empty()] is true, the checked 2D access raises the unorganized-access
    error and the checked 1D access raises the out-of-range error for every
    argument, and a second [clear()] changes nothing. *)
Theorem X16_clear_then_access g (column row n : Z) :
  (clear ;; empty) g = Returned (final (clear g)) [] true
  /\ raised ((clear ;; at_colrow column row) g)
     = Some UnorganizedPointCloudException
  /\ raised ((clear ;; at_ n) g) = Some out_of_range
  /\ final ((clear ;; clear) g) = final (clear g)
  /\ isOrganized (final (clear g)) = false.
Proof.
  repeat (unfold_members; unfold_monad; cbn). unfold empty, bind, get, ret.
  cbn. unfold sov.at_, sov.size. cbn.
  destruct (Z.ltb_spec (to_size_t n) 0) as [H|H];
    [pose proof (to_size_t_nonneg n); lia|].
  repeat split.
Qed.

End Reshape.

Section Copies.
Context {PointT Vector4f Quaternionf : Type}.
Variable PointT_default : PointT.
Abbreviation Cloud := (PointCloud PointT Vector4f Quaternionf).
Abbreviation TransientCall := (transient_call PointT).
Implicit Types (g pc : Cloud).

Lemma identity_indices_in_range (n : nat) (bound : Z) :
  Z.of_nat n <= bound ->
  Forall (fun i => 0 <= i < bound) (map Z.of_nat (List.seq 0 n)).
Proof.
  intros H. apply Forall_forall. intros i Hi.
  apply in_map_iff in Hi as (k & <- & Hk). apply in_seq in Hk. lia.
Qed.

(** X17.  Copying a cloud of fewer than 2^31 points through the subset
    constructor with the identity index list [0, 1, ..., size - 1] is a
    round trip on the points: the result owns the same points in the same
    order, with the header, [is_dense] and the sensor pose of the source,
    as an unorganized cloud ([width = size], [height = 1]) whatever the shape
    of the source was. *)
Theorem X17_subset_with_all_indices_copies pc :
  length_of pc < two31 ->
  exists c,
    PointCloud_subset PointT_default pc
      (map Z.of_nat (List.seq 0 (length (contents pc)))) = Returned c [] tt
    /\ contents c = contents pc
    /\ sov.mode (points c) = sov.Owning
    /\ width c = length_of pc /\ height c = 1
    /\ header c = header pc /\ is_dense c = is_dense pc
    /\ sensor_origin_ c = sensor_origin_ pc
    /\ sensor_orientation_ c = sensor_orientation_ pc.
Proof.
  intros Hlt.
  set (n := length (contents pc)).
  set (indices := map Z.of_nat (List.seq 0 n)).
  assert (Hn : length indices = n)
    by (unfold indices; now rewrite length_map, length_seq).
  assert (Hlen : length_of pc = Z.of_nat n) by reflexivity.
  unfold PointCloud_subset. rewrite Hn.
  set (this := {| header := header pc;
                  points := sov.own (Z.of_nat n) PointT_default;
                  width := to_uint32 (Z.of_nat n); height := 1;
                  is_dense := is_dense pc;
                  sensor_origin_ := sensor_origin_ pc;
                  sensor_orientation_ := sensor_orientation_ pc |}).
  destruct (copy_indexed_run pc indices
              (identity_indices_in_range n two64 ltac:(int_lia))
              (identity_indices_in_range n (length_of pc) ltac:(lia))
              [] (repeat PointT_default n) this)
    as (filled & Hrun & Hfl & Hnth).
  { unfold contents, this, sov.own. cbn. now rewrite Nat2Z.id. }
  { now rewrite repeat_length. }
  cbn [length Z.of_nat app] in Hrun.
  destruct (Z.leb_spec (Z.of_nat n) (length_of pc)); [|lia].
  unfold bind, ret. rewrite Hrun. cbn.
  assert (Hsame : filled = contents pc).
  { apply nth_error_ext. intros i.
    destruct (Nat.lt_ge_cases i n) as [Hi|Hi].
    - rewrite (Hnth i (Z.of_nat i)), Nat2Z.id; [reflexivity|].
      unfold indices. rewrite nth_error_map, nth_error_seq.
      destruct (Nat.ltb_spec i n); [reflexivity|lia].
    - transitivity (@None PointT); [|symmetry]; apply nth_error_None;
        [rewrite Hfl, Hn | fold n]; lia. }
  eexists. split; [reflexivity|]. unfold contents. cbn.
  rewrite Hsame, to_uint32_small by int_lia. auto 10.
Qed.

(** X18.  The ways of appending one cloud to another agree: the value of
    [a + b] is the cloud that [concatenate(a, b, out)] leaves in an owning
    [out] that is another object than [a] and [b], whatever that [out] held,
    and, when [a] owns its buffer, the cloud that [concatenate(a, b)],
    [a += b] and [concatenate(a, b, a)] leave in [a]. *)
Theorem X18_concatenation_paths_agree (a b : Cloud) :
  exists v,
    add b a = Returned a [] v
    /\ (forall out : Cloud,
          sov.mode (points out) = sov.Owning ->
          final (concatenate_out (other a) (other b) out) = v)
    /\ (sov.mode (points a) = sov.Owning ->
        final (concatenate b a) = v /\ final (add_assign b a) = v
        /\ final (concatenate_out this_cloud (other b) a) = v).
Proof.
  eexists. split; [apply add_run|]. split.
  - intros out Hout. rewrite (concatenate_out_other _ _ _ Hout).
    repeat (unfold_members; unfold_monad; cbn).
    unfold sov.insert, contents, length_of, sov.size. cbn.
    rewrite Nat.leb_refl, insert_at_end. reflexivity.
  - intros Hown. rewrite (concatenate_out_onto_first _ _ Hown).
    repeat (unfold_members; unfold_monad; cbn).
    unfold sov.insert, contents, length_of, sov.size. cbn.
    rewrite Nat.leb_refl, insert_at_end, (commit_owning _ _ Hown). cbn. auto.
Qed.

(** One transient call touches nothing but the buffer. *)
Lemma transient_call_frame g (m : TransientCall) :
  header (final (run_transient m g)) = header g
  /\ width (final (run_transient m g)) = width g
  /\ height (final (run_transient m g)) = height g
  /\ is_dense (final (run_transient m g)) = is_dense g
  /\ sensor_origin_ (final (run_transient m g)) = sensor_origin_ g
  /\ sensor_orientation_ (final (run_transient m g)) = sensor_orientation_ g.
Proof.
  destruct m; repeat (unfold_members; unfold_monad; cbn);
    repeat case_scrutinee; auto 10.
Qed.

(** X19.  A batch of transient calls of any length, whether or not one of
    them raises on the way, leaves every field of the cloud other than the
    point buffer as it was: header, [width], [height], [is_dense] and the
    sensor pose. *)
Theorem X19_transient_batch_frame (ms : list TransientCall) g :
  header (final (fold_left (fun k m => k ;; run_transient m) ms (ret tt) g))
  = header g
  /\ width (final (fold_left (fun k m => k ;; run_transient m) ms (ret tt) g))
     = width g
  /\ height (final (fold_left (fun k m => k ;; run_transient m) ms (ret tt) g))
     = height g
  /\ is_dense (final (fold_left (fun k m => k ;; run_transient m) ms (ret tt) g))
     = is_dense g
  /\ sensor_origin_
       (final (fold_left (fun k m => k ;; run_transient m) ms (ret tt) g))
     = sensor_origin_ g
  /\ sensor_orientation_
       (final (fold_left (fun k m => k ;; run_transient m) ms (ret tt) g))
     = sensor_orientation_ g.
Proof.
  induction ms as [|m ms IH] using rev_ind.
  - cbn. auto 10.
  - rewrite fold_left_app. cbn [fold_left].
    change ((fold_left (fun k m => k ;; run_transient m) ms (ret tt)
             ;; run_transient m) g)
      with (match fold_left (fun k m => k ;; run_transient m) ms (ret tt) g with
            | Returned s1 w1 _ =>
                match run_transient m s1 with
                | Returned s2 w2 b => Returned s2 (w1 ++ w2) b
                | Thrown s2 w2 e => Thrown s2 (w1 ++ w2) e
                end
            | Thrown s1 w1 e => Thrown s1 w1 e
            end).
    destruct (fold_left (fun k m => k ;; run_transient m) ms (ret tt) g)
      as [s w a|s w e]; cbn in IH |- *; [|exact IH].
    pose proof (transient_call_frame s m) as Hm.
    destruct (run_transient m s) as [s2 w2 b|s2 w2 e]; cbn in Hm |- *;
      destruct IH as (I1 & I2 & I3 & I4 & I5 & I6);
      destruct Hm as (M1 & M2 & M3 & M4 & M5 & M6);
      repeat split; congruence.
Qed.

End Copies.

Section Overloads.
Context {PointT Vector4f Quaternionf : Type}.
Variable PointT_default : PointT.
Abbreviation Cloud := (PointCloud PointT Vector4f Quaternionf).
Implicit Types (g : Cloud).

(** X20.  The [index_t] overloads agree with their unsigned siblings on
    non-negative arguments: [resize(count, value)] with the value-initialised
    point is [resize(count)], [resize(w, h, value)] with it is
    [resize(w, h)] when [w * h] fits an [int], and [assign(count, value)] is
    [assign(count, 1, value)]. *)
Theorem X20_signed_overloads_agree g (count w h : Z) (value : PointT) :
  0 <= count < two31 -> 0 <= w < two31 -> 0 <= h < two31 -> w * h < two31 ->
  resize_value count PointT_default g = resize PointT_default count g
  /\ resize_wh_value w h PointT_default g = resize_wh PointT_default w h g
  /\ assign count value g = assign_wh count 1 value g.
Proof.
  intros Hc Hw Hh Hwh.
  assert (Ec : to_int32 count = count) by (apply to_int32_small; int_lia).
  assert (E1 : to_int32 1 = 1) by reflexivity.
  assert (Eu : to_uint32 count = count) by (apply to_uint32_small; int_lia).
  assert (Es : to_size_t count = count) by (apply to_size_t_small; int_lia).
  assert (Ein : in_int32 (count * 1) = true).
  { unfold in_int32. apply andb_true_intro. split;
      [apply Z.leb_le | apply Z.ltb_lt]; int_lia. }
  assert (Ew : to_int32 w = w) by (apply to_int32_small; int_lia).
  assert (Eh : to_int32 h = h) by (apply to_int32_small; int_lia).
  assert (Euw : to_uint32 w = w) by (apply to_uint32_small; int_lia).
  assert (Euh : to_uint32 h = h) by (apply to_uint32_small; int_lia).
  assert (Hin : in_int32 (w * h) = true).
  { unfold in_int32. apply andb_true_intro. split;
      [apply Z.leb_le | apply Z.ltb_lt]; [int_lia; nia | exact Hwh]. }
  repeat split.
  - unfold resize_value, resize. now rewrite Ec, Es, Eu.
  - unfold resize_wh_value, resize_wh, index_mul.
    rewrite Ew, Eh, Euw, Euh, Hin. unfold mul32.
    rewrite (to_uint32_small (w * h)) by (split; [nia | int_lia]).
    unfold bind, ret, on_points, set_width, set_height. cbn.
    rewrite (to_size_t_small (w * h)) by (split; [nia | int_lia]).
    destruct (sov.resize (w * h) PointT_default (points g)); reflexivity.
  - unfold assign, assign_wh, index_mul. rewrite Ec, E1, Ein, Z.mul_1_r.
    change (to_uint32 1) with 1.
    unfold bind, ret, on_points, size, get, set_width, set_height. cbn.
    destruct (sov.assign (to_size_t count) value (points g)) as [e|t] eqn:Ht;
      cbn; [reflexivity|].
    apply assign_size in Ht; [|nonneg]. unfold length_of. cbn.
    rewrite Ht, Es. reflexivity.
Qed.

(** X21.  The degenerate widths of the width-qualified [assign]: with
    [new_width = 0] it leaves the cloud that [assign(first, last)] leaves,
    raises exactly when that does, and emits the zero-width diagnostic
    before touching the buffer; with [new_width] equal to the size of a
    non-empty range of fewer than 2^31 points it leaves the same cloud and
    emits nothing. *)
Theorem X21_assign_width_degenerate g (range : list PointT) :
  (final (assign_range_width range 0 g) = final (assign_range range g)
   /\ raised (assign_range_width range 0 g) = raised (assign_range range g)
   /\ emitted (assign_range_width range 0 g) = [warn_zero_width])
  /\ (range <> [] -> Z.of_nat (length range) < two31 ->
      final (assign_range_width range (Z.of_nat (length range)) g)
      = final (assign_range range g)
      /\ raised (assign_range_width range (Z.of_nat (length range)) g)
         = raised (assign_range range g)
      /\ emitted (assign_range_width range (Z.of_nat (length range)) g) = []).
Proof.
  split.
  - unfold assign_range_width. change (to_int32 0 =? 0) with true. cbn iota.
    unfold assign_range, bind, PCL_WARN, on_points, size, get, ret,
      set_width, set_height.
    destruct (sov.assign_range range (points g)); cbn; auto.
  - intros Hne Hlt.
    set (n := Z.of_nat (length range)) in *.
    assert (Hpos : 0 < n) by (unfold n; destruct range; [contradiction|cbn; lia]).
    assert (Hi : to_int32 n = n) by (apply to_int32_small; int_lia).
    assert (Hu : to_uint32 n = n) by (apply to_uint32_small; int_lia).
    destruct (sov.assign_range range (points g)) as [e|t] eqn:Ht.
    + unfold assign_range_width, assign_range, bind, on_points.
      rewrite Hi. destruct (Z.eqb_spec n 0); [lia|]. rewrite Ht. cbn. auto.
    + rewrite (assign_range_width_organized g range n t n
                 ltac:(rewrite Hi; lia) Ht eq_refl).
      * rewrite Hi, Hu, Z.div_same by lia. change (to_uint32 1) with 1.
        unfold assign_range, bind, on_points, size, get, ret, set_width,
          set_height.
        rewrite Ht. cbn. unfold length_of. cbn.
        rewrite (assign_range_size _ _ _ n Ht eq_refl), Hu. auto.
      * rewrite Hi, Hu, Z.div_same by lia. change (to_uint32 1) with 1.
        rewrite <- Hu at 1. apply mul32_one. int_lia.
Qed.

End Overloads.

(** ** Instances of the further properties *)

(** X2, an instance: seven points kept in a 3 x 2 shape are reshaped to
    7 x 1. *)
Lemma X2_witness :
  raised (resize 0 7 (with_height 2 (with_width 3 (flat 7)))) = None
  /\ points (final (resize 0 7 (with_height 2 (with_width 3 (flat 7)))))
     = points (flat 7)
  /\ mul32 (width (final (resize 0 7 (with_height 2 (with_width 3 (flat 7))))))
           (height (final (resize 0 7 (with_height 2 (with_width 3 (flat 7))))))
     = 7.
Proof.
  assert (H : length_of (with_height 2 (with_width 3 (flat 7))) < two32)
    by reflexivity.
  destruct (X2_resize_to_size_repairs 0 (with_height 2 (with_width 3 (flat 7))) H)
    as (H1 & H2 & H3 & _).
  split; [exact H1|]. split; [exact H2 | exact H3].
Defined.

(** X3, an instance: erasing the first point of the 3 x 2 grid. *)
Lemma X3_witness :
  height (final (run_plain 0 (call_erase 0) grid_3x2)) = 1
  /\ isOrganized (final (run_plain 0 (call_erase 0) grid_3x2)) = false
  /\ width (final (run_plain 0 (call_erase 0) grid_3x2))
     = to_uint32 (length_of (final (run_plain 0 (call_erase 0) grid_3x2))).
Proof.
  apply (X3_collapsing_calls_unorganize 0 grid_3x2 (call_erase 0));
    reflexivity.
Defined.

(** X4, an instance: erasing the empty range at position 1 of the borrowed
    3 x 1 view. *)
Lemma X4_witness :
  raised (run_plain 0 (call_erase_range 1 1) view_3x1) = None
  /\ points (final (run_plain 0 (call_erase_range 1 1) view_3x1))
     = points view_3x1
  /\ height (final (run_plain 0 (call_erase_range 1 1) view_3x1)) = 1
  /\ width (final (run_plain 0 (call_erase_range 1 1) view_3x1))
     = to_uint32 (length_of view_3x1).
Proof.
  assert (H : (1 <= length (contents view_3x1))%nat) by (apply Nat.leb_le; reflexivity).
  apply (X4_empty_edits_collapse 0 view_3x1 1 0 H (call_erase_range 1 1)).
  right. right. reflexivity.
Defined.

(** X5, an instance: emplacing 16 at the end of the 3 x 2 grid. *)
Lemma X5_witness :
  contents (final (emplace_back 16 grid_3x2)) = contents grid_3x2 ++ [16].
Proof.
  assert (H : emplace_back 16 grid_3x2
              = Returned (final (emplace_back 16 grid_3x2)) [] 16)
    by reflexivity.
  destruct (X5_emplace_back_returns_point grid_3x2 16) as (_ & _ & Hv).
  exact (proj2 (Hv _ _ _ (or_introl H))).
Defined.

(** X6, an instance: inserting 99 at position 2 of the 3 x 2 grid and
    erasing it again. *)
Lemma X6_witness :
  exists g',
    (it <- insert 2 99 ;; erase it) grid_3x2 = Returned g' [] 2%nat
    /\ contents g' = contents grid_3x2
    /\ height g' = 1
    /\ width g' = to_uint32 (length_of grid_3x2).
Proof.
  assert (H : (2 <= length (contents grid_3x2))%nat) by (apply Nat.leb_le; reflexivity).
  exact (X6_insert_erase_round_trip grid_3x2 2 99 eq_refl H).
Defined.

(** X7, an instance: pushing 16 and 17 onto the 3 x 2 grid. *)
Lemma X7_witness :
  raised (fold_left (fun m pt => m ;; push_back pt) [16; 17] (ret tt) grid_3x2)
  = None
  /\ final (fold_left (fun m pt => m ;; push_back pt) [16; 17] (ret tt) grid_3x2)
     = final ((e <- end_ ;; insert_range e [16; 17]) grid_3x2).
Proof.
  apply (X7_push_back_all_is_insert_at_end grid_3x2 [16; 17]);
    [reflexivity | discriminate].
Defined.

(** X9, an instance: appending two points stamped 5 to the borrowed view,
    whose stamp is 0. *)
Lemma X9_witness :
  raised (concatenate (with_header (with_stamp 5 PCLHeader_default) (flat 2))
            view_3x1) = Some capacity_violation
  /\ stamp (header (final (concatenate
              (with_header (with_stamp 5 PCLHeader_default) (flat 2))
              view_3x1))) = 5
  /\ points (final (concatenate
               (with_header (with_stamp 5 PCLHeader_default) (flat 2))
               view_3x1)) = points view_3x1.
Proof.
  destruct (X9_concatenate_failure_keeps_new_stamp view_3x1
              (with_header (with_stamp 5 PCLHeader_default) (flat 2)))
    as [Hpost Hraise].
  assert (Hne : contents (with_header (with_stamp 5 PCLHeader_default) (flat 2))
                <> []) by discriminate.
  specialize (Hraise eq_refl Hne).
  destruct (Hpost _ Hraise) as (Hs & Hp & _).
  split; [exact Hraise|]. split; [exact Hs | exact Hp].
Defined.

(** X10, an instance: coordinates (1, 1) of the 3 x 2 grid. *)
Lemma X10_witness :
  exists p,
    nth_error (contents grid_3x2) (Z.to_nat (1 * width grid_3x2 + 1)) = Some p
    /\ at_colrow 1 1 grid_3x2 = Returned grid_3x2 [] p
    /\ call_colrow 1 1 grid_3x2 = Returned grid_3x2 [] p.
Proof.
  assert (H1 : 1 < height grid_3x2) by reflexivity.
  assert (H2 : width grid_3x2 * height grid_3x2 = length_of grid_3x2)
    by reflexivity.
  assert (H3 : length_of grid_3x2 <= two32) by discriminate.
  assert (H4 : 0 <= 1 < width grid_3x2) by (split; [discriminate|reflexivity]).
  assert (H5 : 0 <= 1 < height grid_3x2) by (split; [discriminate|reflexivity]).
  exact (X10_in_grid_access_row_major grid_3x2 1 1 H1 H2 H3 H4 H5).
Defined.

(** X11, an instance: a 3 x 2 cloud of sevens read at (2, 1). *)
Lemma X11_witness :
  at_colrow 2 1 (PointCloud_alloc tt tt 3 2 7 : Cloud)
  = Returned (PointCloud_alloc tt tt 3 2 7) [] 7.
Proof.
  assert (Hw : 0 <= 3 < two32) by (split; [discriminate|reflexivity]).
  assert (Hh : 0 <= 2 < two32) by (split; [discriminate|reflexivity]).
  assert (Hp : 3 * 2 < two32) by reflexivity.
  assert (H1 : 1 < 2) by reflexivity.
  assert (Hc : 0 <= 2 < 3) by (split; [discriminate|reflexivity]).
  assert (Hr : 0 <= 1 < 2) by (split; [discriminate|reflexivity]).
  destruct (X11_fill_constructor_read_back tt tt 3 2 7 Hw Hh Hp)
    as (_ & _ & _ & _ & _ & Hat).
  exact (Hat 2 1 H1 Hc Hr).
Defined.

(** X12, an instance: a 3 x 2 view of the external storage read at (2, 1). *)
Lemma X12_witness :
  at_colrow 2 1 (PointCloud_span tt tt storage 3 2 : Cloud)
  = Returned (PointCloud_span tt tt storage 3 2) []
      (storage (Z.to_nat (1 * 3 + 2)))
  /\ call_colrow 2 1 (PointCloud_span tt tt storage 3 2 : Cloud)
     = Returned (PointCloud_span tt tt storage 3 2) []
         (storage (Z.to_nat (1 * 3 + 2))).
Proof.
  assert (Hw : 0 <= 3 < two32) by (split; [discriminate|reflexivity]).
  assert (Hh : 0 <= 2 < two32) by (split; [discriminate|reflexivity]).
  assert (Hp : 3 * 2 < two32) by reflexivity.
  assert (H1 : 1 < 2) by reflexivity.
  assert (Hc : 0 <= 2 < 3) by (split; [discriminate|reflexivity]).
  assert (Hr : 0 <= 1 < 2) by (split; [discriminate|reflexivity]).
  exact (proj2 (X12_span_constructor_read_back tt tt storage 3 2 2 1
                  Hw Hh Hp H1 Hc Hr)).
Defined.

(** X14, an instance: the 3 x 2 grid resized to 2 x 4 and read at (1, 1)
    and at (1, 3). *)
Lemma X14_witness :
  (exists g',
     resize_wh 0 2 4 grid_3x2 = Returned g' [] tt
     /\ width g' = 2 /\ height g' = 4 /\ length_of g' = 2 * 4
     /\ at_colrow 1 1 g'
        = Returned g' [] (nth (Z.to_nat (1 * 2 + 1)) (contents grid_3x2) 0))
  /\ (exists g',
        resize_wh 0 2 4 grid_3x2 = Returned g' [] tt
        /\ width g' = 2 /\ height g' = 4 /\ length_of g' = 2 * 4
        /\ at_colrow 1 3 g'
           = Returned g' [] (nth (Z.to_nat (3 * 2 + 1)) (contents grid_3x2) 0)).
Proof.
  assert (Hw : 0 <= 2 < two32) by (split; [discriminate|reflexivity]).
  assert (Hh : 0 <= 4 < two32) by (split; [discriminate|reflexivity]).
  assert (Hp : 2 * 4 < two32) by reflexivity.
  assert (H1 : 1 < 4) by reflexivity.
  assert (Hc : 0 <= 1 < 2) by (split; [discriminate|reflexivity]).
  assert (Hr : 0 <= 1 < 4) by (split; [discriminate|reflexivity]).
  assert (Hr' : 0 <= 3 < 4) by (split; [discriminate|reflexivity]).
  split.
  - exact (X14_resize_wh_keeps_linear_order 0 grid_3x2 2 4 1 1
             eq_refl Hw Hh Hp H1 Hc Hr).
  - exact (X14_resize_wh_keeps_linear_order 0 grid_3x2 2 4 1 3
             eq_refl Hw Hh Hp H1 Hc Hr').
Defined.

(** X15, an instance: six points assigned with width 3 and read at (1, 1). *)
Lemma X15_witness :
  exists g' p,
    assign_range_width [1; 2; 3; 4; 5; 6] 3 empty_cloud = Returned g' [] tt
    /\ nth_error [1; 2; 3; 4; 5; 6] (Z.to_nat (1 * 3 + 1)) = Some p
    /\ at_colrow 1 1 g' = Returned g' [] p
    /\ call_colrow 1 1 g' = Returned g' [] p.
Proof.
  assert (Hn : Z.of_nat (length [1; 2; 3; 4; 5; 6]) < two32) by reflexivity.
  assert (Hw : 0 < 3 < two31) by (split; reflexivity).
  assert (Hd : Z.of_nat (length [1; 2; 3; 4; 5; 6]) mod 3 = 0) by reflexivity.
  assert (Hq : 1 < Z.of_nat (length [1; 2; 3; 4; 5; 6]) / 3) by reflexivity.
  assert (Hc : 0 <= 1 < 3) by (split; [discriminate|reflexivity]).
  assert (Hr : 0 <= 1 < Z.of_nat (length [1; 2; 3; 4; 5; 6]) / 3)
    by (split; [discriminate|reflexivity]).
  exact (X15_assign_with_width_row_major empty_cloud [1; 2; 3; 4; 5; 6] 3 1 1
           eq_refl Hn Hw Hd Hq Hc Hr).
Defined.

(** X17, an instance: the 3 x 2 grid copied through all its indices. *)
Lemma X17_witness :
  exists c,
    PointCloud_subset 0 grid_3x2
      (map Z.of_nat (List.seq 0 (length (contents grid_3x2)))) = Returned c [] tt
    /\ contents c = contents grid_3x2
    /\ sov.mode (points c) = sov.Owning
    /\ width c = length_of grid_3x2 /\ height c = 1
    /\ header c = header grid_3x2 /\ is_dense c = is_dense grid_3x2
    /\ sensor_origin_ c = sensor_origin_ grid_3x2
    /\ sensor_orientation_ c = sensor_orientation_ grid_3x2.
Proof.
  assert (H : length_of grid_3x2 < two31) by reflexivity.
  exact (X17_subset_with_all_indices_copies 0 grid_3x2 H).
Defined.

(** X18, an instance: the 3 x 2 grid and two more points. *)
Lemma X18_witness :
  exists v,
    add (flat 2) grid_3x2 = Returned grid_3x2 [] v
    /\ final (concatenate_out (other grid_3x2) (other (flat 2)) empty_cloud) = v
    /\ final (concatenate (flat 2) grid_3x2) = v
    /\ final (add_assign (flat 2) grid_3x2) = v
    /\ final (concatenate_out this_cloud (other (flat 2)) grid_3x2) = v.
Proof.
  destruct (X18_concatenation_paths_agree grid_3x2 (flat 2))
    as (v & Hadd & Hout & Hin).
  exists v. split; [exact Hadd|].
  split; [exact (Hout empty_cloud eq_refl) | exact (Hin eq_refl)].
Defined.

(** X20, an instance: the 3 x 2 grid resized to four points, to 2 x 2, and
    assigned four points. *)
Lemma X20_witness :
  resize_value 4 0 grid_3x2 = resize 0 4 grid_3x2
  /\ resize_wh_value 2 2 0 grid_3x2 = resize_wh 0 2 2 grid_3x2
  /\ assign 4 9 grid_3x2 = assign_wh 4 1 9 grid_3x2.
Proof.
  assert (Hc : 0 <= 4 < two31) by (split; [discriminate|reflexivity]).
  assert (Hw : 0 <= 2 < two31) by (split; [discriminate|reflexivity]).
  assert (Hp : 2 * 2 < two31) by reflexivity.
  exact (X20_signed_overloads_agree 0 grid_3x2 4 2 2 9 Hc Hw Hw Hp).
Defined.

(** X21, an instance: three points assigned with width 3. *)
Lemma X21_witness :
  final (assign_range_width [1; 2; 3] (Z.of_nat (length [1; 2; 3])) grid_3x2)
  = final (assign_range [1; 2; 3] grid_3x2)
  /\ raised (assign_range_width [1; 2; 3] (Z.of_nat (length [1; 2; 3])) grid_3x2)
     = raised (assign_range [1; 2; 3] grid_3x2)
  /\ emitted (assign_range_width [1; 2; 3] (Z.of_nat (length [1; 2; 3])) grid_3x2)
     = [].
Proof.
  assert (Hne : [1; 2; 3] <> @nil Z) by discriminate.
  assert (Hlt : Z.of_nat (length [1; 2; 3]) < two31) by reflexivity.
  exact (proj2 (X21_assign_width_degenerate grid_3x2 [1; 2; 3]) Hne Hlt).
Defined.
